(** * ClubCompass: the assessment / recommendation engine

    A shallow embedding of [backend/app/services/assessment_service.py]
    ([AssessmentService]) and of the two assessment endpoints of
    [backend/app/api/v1/assessment.py], with the properties of the
    recommendation engine proved about it.

    Modelling conventions.
    - Python [int] is [Z]; Python [str] is [string] (bytes; the case mapping of
      [str.title] is modelled on ASCII letters).
    - A Python [dict] that is only looked up (the scoring table, the text
      tables) is a [gmap]; the response dictionary, whose iteration order the
      scoring loop observes, is an association list in insertion order.
    - A raised exception is the [Raise] branch of [result]; database access is
      explicit state passing over the record [DB]. *)

From stdpp Require Import gmap strings list fin_maps sorting.
From Stdlib Require Import ZArith Lia Ascii.

Open Scope string_scope.
Open Scope list_scope.
Open Scope Z_scope.

(** ** Exceptions *)

Inductive exn : Type :=
| KeyError (key : string)
| ValueError (msg : string)
| IntegrityError (msg : string).

Inductive result (A : Type) : Type :=
| Ok (a : A)
| Raise (e : exn).
Arguments Ok {A} a.
Arguments Raise {A} e.

Definition bind {A B} (r : result A) (k : A → result B) : result B :=
  match r with
  | Ok a => k a
  | Raise e => Raise e
  end.

Notation "x ←! r ; k" := (bind r (λ x, k))
  (at level 20, r at level 100, k at level 200, right associativity,
   format "x  ←!  r ;  '/' k").

(** [for x in l: acc = step acc x], stopping at the first exception. *)
Fixpoint for_each {A S} (step : S → A → result S) (l : list A) (acc : S) : result S :=
  match l with
  | [] => Ok acc
  | x :: l' => acc' ←! step acc x; for_each step l' acc'
  end.

(** ** Python dictionaries *)

(** A dictionary display [{k1: v1, k2: v2, ...}]: entries are inserted left to
    right, so a later binding of a key replaces an earlier one. *)
Definition py_dict {V} (entries : list (string * V)) : gmap string V :=
  foldl (λ m kv, <[kv.1 := kv.2]> m) ∅ entries.

(** [d[k]]: raises [KeyError] on a missing key. *)
Definition getitem {V} (d : gmap string V) (k : string) : result V :=
  match d !! k with
  | Some v => Ok v
  | None => Raise (KeyError k)
  end.

(** [d.get(k, dflt)]. *)
Definition dict_get {V} (d : gmap string V) (k : string) (dflt : V) : V :=
  default dflt (d !! k).

(** [k in d]. *)
Definition dict_in {V} (k : string) (d : gmap string V) : bool :=
  bool_decide (is_Some (d !! k)).

(** ** Schemas ([app/schemas/assessment.py]) *)

Record AssessmentResponses := {
  enjoy : string;
  time : string;
  domain : string;
  impact : string;
  past : string
}.

(** [AssessmentResponses.model_dump()]: the fields in declaration order. *)
Definition model_dump (r : AssessmentResponses) : list (string * string) :=
  [("enjoy", enjoy r); ("time", time r); ("domain", domain r);
   ("impact", impact r); ("past", past r)].

Record AssessmentCreate := {
  ac_responses : AssessmentResponses;
  ac_user_id : option string
}.

Record ReasoningItem := {
  question : string;
  answer : string;
  contribution : Z
}.

(** The [club] dictionary of a recommendation: id, name, slug, tagline,
    logo_url. *)
Record ClubSummary := {
  cs_id : string;
  cs_name : string;
  cs_slug : string;
  cs_tagline : string;
  cs_logo_url : string
}.

Record ClubRecommendation := {
  club : ClubSummary;
  score : Z;
  rank : Z;
  reasoning : list ReasoningItem
}.

(** ** The scoring table ([AssessmentService.CLUB_SCORING_RULES]) *)

Definition CLUB_SCORING_RULES : gmap string (gmap string (gmap string Z)) :=
  py_dict [
    ("acm", py_dict [
      ("enjoy", py_dict [("coding", 4); ("designing", 2); ("organizing", 1); ("public_speaking", 1); ("creative", 2)]);
      ("domain", py_dict [("ai", 3); ("robotics", 2); ("web", 3); ("electronics", 1); ("management", 0)]);
      ("impact", py_dict [("tech", 4); ("social", 1); ("cultural", 0); ("entrepreneurship", 2)]);
      ("past", py_dict [("coding", 3); ("technical", 3); ("cultural", 0); ("sports", 0); ("none", 1)])]);
    ("teamcodelocked", py_dict [
      ("enjoy", py_dict [("coding", 5); ("designing", 2); ("organizing", 1); ("public_speaking", 1); ("creative", 1)]);
      ("domain", py_dict [("ai", 2); ("robotics", 1); ("web", 3); ("electronics", 1); ("management", 0)]);
      ("impact", py_dict [("tech", 5); ("social", 0); ("cultural", 0); ("entrepreneurship", 1)]);
      ("past", py_dict [("coding", 4); ("technical", 3); ("cultural", 0); ("sports", 0); ("none", 1)])]);
    ("gdscl", py_dict [
      ("enjoy", py_dict [("coding", 4); ("designing", 3); ("organizing", 2); ("public_speaking", 2); ("creative", 2)]);
      ("domain", py_dict [("ai", 3); ("robotics", 1); ("web", 4); ("electronics", 1); ("management", 1)]);
      ("impact", py_dict [("tech", 4); ("social", 2); ("cultural", 0); ("entrepreneurship", 2)]);
      ("past", py_dict [("coding", 3); ("technical", 3); ("cultural", 0); ("sports", 0); ("none", 2)])]);
    ("augmentai", py_dict [
      ("enjoy", py_dict [("coding", 4); ("designing", 2); ("organizing", 1); ("public_speaking", 1); ("creative", 2)]);
      ("domain", py_dict [("ai", 5); ("robotics", 2); ("web", 2); ("electronics", 1); ("management", 1)]);
      ("impact", py_dict [("tech", 5); ("social", 1); ("cultural", 0); ("entrepreneurship", 2)]);
      ("past", py_dict [("coding", 3); ("technical", 4); ("cultural", 0); ("sports", 0); ("none", 1)])]);
    ("varaince", py_dict [
      ("enjoy", py_dict [("coding", 4); ("designing", 2); ("organizing", 1); ("public_speaking", 1); ("creative", 1)]);
      ("domain", py_dict [("ai", 5); ("robotics", 1); ("web", 2); ("electronics", 1); ("management", 1)]);
      ("impact", py_dict [("tech", 5); ("social", 1); ("cultural", 0); ("entrepreneurship", 2)]);
      ("past", py_dict [("coding", 3); ("technical", 4); ("cultural", 0); ("sports", 0); ("none", 1)])]);
    ("dsync", py_dict [
      ("enjoy", py_dict [("coding", 4); ("designing", 1); ("organizing", 1); ("public_speaking", 1); ("creative", 1)]);
      ("domain", py_dict [("ai", 5); ("robotics", 1); ("web", 3); ("electronics", 1); ("management", 1)]);
      ("impact", py_dict [("tech", 4); ("social", 1); ("cultural", 0); ("entrepreneurship", 2)]);
      ("past", py_dict [("coding", 4); ("technical", 3); ("cultural", 0); ("sports", 0); ("none", 1)])]);
    ("gradient", py_dict [
      ("enjoy", py_dict [("coding", 4); ("designing", 2); ("organizing", 1); ("public_speaking", 1); ("creative", 1)]);
      ("domain", py_dict [("ai", 5); ("robotics", 2); ("web", 2); ("electronics", 1); ("management", 1)]);
      ("impact", py_dict [("tech", 5); ("social", 1); ("cultural", 0); ("entrepreneurship", 2)]);
      ("past", py_dict [("coding", 3); ("technical", 4); ("cultural", 0); ("sports", 0); ("none", 1)])]);
    ("robotics", py_dict [
      ("enjoy", py_dict [("coding", 3); ("designing", 4); ("organizing", 1); ("public_speaking", 0); ("creative", 3)]);
      ("domain", py_dict [("ai", 3); ("robotics", 5); ("web", 1); ("electronics", 4); ("management", 0)]);
      ("impact", py_dict [("tech", 4); ("social", 1); ("cultural", 0); ("entrepreneurship", 2)]);
      ("past", py_dict [("coding", 2); ("technical", 4); ("cultural", 0); ("sports", 0); ("none", 1)])]);
    ("aquila", py_dict [
      ("enjoy", py_dict [("coding", 2); ("designing", 4); ("organizing", 1); ("public_speaking", 1); ("creative", 3)]);
      ("domain", py_dict [("ai", 1); ("robotics", 5); ("web", 0); ("electronics", 3); ("management", 1)]);
      ("impact", py_dict [("tech", 4); ("social", 1); ("cultural", 0); ("entrepreneurship", 2)]);
      ("past", py_dict [("coding", 1); ("technical", 4); ("cultural", 0); ("sports", 0); ("none", 1)])]);
    ("aero", py_dict [
      ("enjoy", py_dict [("coding", 2); ("designing", 4); ("organizing", 1); ("public_speaking", 1); ("creative", 3)]);
      ("domain", py_dict [("ai", 1); ("robotics", 5); ("web", 0); ("electronics", 3); ("management", 1)]);
      ("impact", py_dict [("tech", 4); ("social", 1); ("cultural", 0); ("entrepreneurship", 2)]);
      ("past", py_dict [("coding", 1); ("technical", 4); ("cultural", 0); ("sports", 0); ("none", 1)])]);
    ("rocketry", py_dict [
      ("enjoy", py_dict [("coding", 2); ("designing", 5); ("organizing", 1); ("public_speaking", 1); ("creative", 3)]);
      ("domain", py_dict [("ai", 1); ("robotics", 4); ("web", 0); ("electronics", 3); ("management", 1)]);
      ("impact", py_dict [("tech", 5); ("social", 0); ("cultural", 0); ("entrepreneurship", 2)]);
      ("past", py_dict [("coding", 1); ("technical", 5); ("cultural", 0); ("sports", 0); ("none", 1)])]);
    ("upagraha", py_dict [
      ("enjoy", py_dict [("coding", 3); ("designing", 4); ("organizing", 1); ("public_speaking", 1); ("creative", 2)]);
      ("domain", py_dict [("ai", 2); ("robotics", 5); ("web", 1); ("electronics", 4); ("management", 1)]);
      ("impact", py_dict [("tech", 5); ("social", 1); ("cultural", 0); ("entrepreneurship", 2)]);
      ("past", py_dict [("coding", 2); ("technical", 5); ("cultural", 0); ("sports", 0); ("none", 1)])]);
    ("bullz", py_dict [
      ("enjoy", py_dict [("coding", 1); ("designing", 5); ("organizing", 2); ("public_speaking", 1); ("creative", 3)]);
      ("domain", py_dict [("ai", 0); ("robotics", 4); ("web", 0); ("electronics", 3); ("management", 2)]);
      ("impact", py_dict [("tech", 4); ("social", 1); ("cultural", 0); ("entrepreneurship", 3)]);
      ("past", py_dict [("coding", 1); ("technical", 5); ("cultural", 0); ("sports", 2); ("none", 1)])]);
    ("ieee-sb", py_dict [
      ("enjoy", py_dict [("coding", 3); ("designing", 2); ("organizing", 1); ("public_speaking", 1); ("creative", 1)]);
      ("domain", py_dict [("ai", 2); ("robotics", 3); ("web", 2); ("electronics", 4); ("management", 0)]);
      ("impact", py_dict [("tech", 4); ("social", 1); ("cultural", 0); ("entrepreneurship", 2)]);
      ("past", py_dict [("coding", 2); ("technical", 4); ("cultural", 0); ("sports", 0); ("none", 1)])]);
    ("ieee-cs", py_dict [
      ("enjoy", py_dict [("coding", 4); ("designing", 2); ("organizing", 1); ("public_speaking", 1); ("creative", 1)]);
      ("domain", py_dict [("ai", 3); ("robotics", 2); ("web", 4); ("electronics", 2); ("management", 0)]);
      ("impact", py_dict [("tech", 5); ("social", 1); ("cultural", 0); ("entrepreneurship", 1)]);
      ("past", py_dict [("coding", 4); ("technical", 3); ("cultural", 0); ("sports", 0); ("none", 1)])]);
    ("ieee-wie", py_dict [
      ("enjoy", py_dict [("coding", 3); ("designing", 2); ("organizing", 2); ("public_speaking", 2); ("creative", 1)]);
      ("domain", py_dict [("ai", 2); ("robotics", 2); ("web", 2); ("electronics", 3); ("management", 2)]);
      ("impact", py_dict [("tech", 3); ("social", 3); ("cultural", 1); ("entrepreneurship", 2)]);
      ("past", py_dict [("coding", 2); ("technical", 3); ("cultural", 1); ("sports", 0); ("none", 2)])]);
    ("ieee-pes", py_dict [
      ("enjoy", py_dict [("coding", 2); ("designing", 3); ("organizing", 1); ("public_speaking", 1); ("creative", 1)]);
      ("domain", py_dict [("ai", 1); ("robotics", 2); ("web", 1); ("electronics", 5); ("management", 1)]);
      ("impact", py_dict [("tech", 4); ("social", 2); ("cultural", 0); ("entrepreneurship", 1)]);
      ("past", py_dict [("coding", 1); ("technical", 4); ("cultural", 0); ("sports", 0); ("none", 1)])]);
    ("ieee-sps", py_dict [
      ("enjoy", py_dict [("coding", 3); ("designing", 2); ("organizing", 1); ("public_speaking", 1); ("creative", 1)]);
      ("domain", py_dict [("ai", 3); ("robotics", 1); ("web", 1); ("electronics", 4); ("management", 0)]);
      ("impact", py_dict [("tech", 4); ("social", 1); ("cultural", 0); ("entrepreneurship", 1)]);
      ("past", py_dict [("coding", 2); ("technical", 4); ("cultural", 0); ("sports", 0); ("none", 1)])]);
    ("elsoc", py_dict [
      ("enjoy", py_dict [("coding", 2); ("designing", 4); ("organizing", 1); ("public_speaking", 1); ("creative", 2)]);
      ("domain", py_dict [("ai", 2); ("robotics", 3); ("web", 1); ("electronics", 5); ("management", 0)]);
      ("impact", py_dict [("tech", 4); ("social", 1); ("cultural", 0); ("entrepreneurship", 1)]);
      ("past", py_dict [("coding", 2); ("technical", 4); ("cultural", 0); ("sports", 0); ("none", 1)])]);
    ("eeea", py_dict [
      ("enjoy", py_dict [("coding", 2); ("designing", 3); ("organizing", 1); ("public_speaking", 1); ("creative", 1)]);
      ("domain", py_dict [("ai", 1); ("robotics", 2); ("web", 1); ("electronics", 5); ("management", 1)]);
      ("impact", py_dict [("tech", 4); ("social", 1); ("cultural", 0); ("entrepreneurship", 1)]);
      ("past", py_dict [("coding", 1); ("technical", 4); ("cultural", 0); ("sports", 0); ("none", 1)])]);
    ("mea", py_dict [
      ("enjoy", py_dict [("coding", 1); ("designing", 4); ("organizing", 1); ("public_speaking", 1); ("creative", 2)]);
      ("domain", py_dict [("ai", 1); ("robotics", 3); ("web", 0); ("electronics", 3); ("management", 2)]);
      ("impact", py_dict [("tech", 4); ("social", 1); ("cultural", 0); ("entrepreneurship", 2)]);
      ("past", py_dict [("coding", 1); ("technical", 5); ("cultural", 0); ("sports", 0); ("none", 1)])]);
    ("codeio", py_dict [
      ("enjoy", py_dict [("coding", 5); ("designing", 3); ("organizing", 1); ("public_speaking", 1); ("creative", 2)]);
      ("domain", py_dict [("ai", 3); ("robotics", 1); ("web", 4); ("electronics", 1); ("management", 1)]);
      ("impact", py_dict [("tech", 5); ("social", 1); ("cultural", 0); ("entrepreneurship", 2)]);
      ("past", py_dict [("coding", 4); ("technical", 3); ("cultural", 0); ("sports", 0); ("none", 1)])]);
    ("protocol", py_dict [
      ("enjoy", py_dict [("coding", 4); ("designing", 2); ("organizing", 2); ("public_speaking", 2); ("creative", 2)]);
      ("domain", py_dict [("ai", 2); ("robotics", 1); ("web", 3); ("electronics", 1); ("management", 1)]);
      ("impact", py_dict [("tech", 4); ("social", 1); ("cultural", 0); ("entrepreneurship", 2)]);
      ("past", py_dict [("coding", 3); ("technical", 3); ("cultural", 0); ("sports", 0); ("none", 2)])]);
    ("iseclub", py_dict [
      ("enjoy", py_dict [("coding", 4); ("designing", 2); ("organizing", 2); ("public_speaking", 2); ("creative", 2)]);
      ("domain", py_dict [("ai", 3); ("robotics", 1); ("web", 3); ("electronics", 1); ("management", 1)]);
      ("impact", py_dict [("tech", 4); ("social", 2); ("cultural", 1); ("entrepreneurship", 2)]);
      ("past", py_dict [("coding", 3); ("technical", 3); ("cultural", 1); ("sports", 0); ("none", 2)])]);
    ("edc", py_dict [
      ("enjoy", py_dict [("coding", 1); ("designing", 2); ("organizing", 4); ("public_speaking", 4); ("creative", 3)]);
      ("domain", py_dict [("ai", 1); ("robotics", 0); ("web", 2); ("electronics", 0); ("management", 5)]);
      ("impact", py_dict [("tech", 2); ("social", 2); ("cultural", 1); ("entrepreneurship", 5)]);
      ("past", py_dict [("coding", 1); ("technical", 1); ("cultural", 1); ("sports", 1); ("none", 2)])]);
    ("ciie", py_dict [
      ("enjoy", py_dict [("coding", 1); ("designing", 2); ("organizing", 4); ("public_speaking", 4); ("creative", 2)]);
      ("domain", py_dict [("ai", 2); ("robotics", 0); ("web", 2); ("electronics", 0); ("management", 5)]);
      ("impact", py_dict [("tech", 2); ("social", 2); ("cultural", 0); ("entrepreneurship", 5)]);
      ("past", py_dict [("coding", 1); ("technical", 1); ("cultural", 0); ("sports", 0); ("none", 2)])]);
    ("iic", py_dict [
      ("enjoy", py_dict [("coding", 1); ("designing", 2); ("organizing", 4); ("public_speaking", 3); ("creative", 2)]);
      ("domain", py_dict [("ai", 2); ("robotics", 0); ("web", 2); ("electronics", 0); ("management", 5)]);
      ("impact", py_dict [("tech", 2); ("social", 2); ("cultural", 0); ("entrepreneurship", 5)]);
      ("past", py_dict [("coding", 1); ("technical", 1); ("cultural", 0); ("sports", 0); ("none", 2)])]);
    ("business-insights", py_dict [
      ("enjoy", py_dict [("coding", 1); ("designing", 1); ("organizing", 4); ("public_speaking", 4); ("creative", 2)]);
      ("domain", py_dict [("ai", 1); ("robotics", 0); ("web", 1); ("electronics", 0); ("management", 5)]);
      ("impact", py_dict [("tech", 1); ("social", 2); ("cultural", 0); ("entrepreneurship", 5)]);
      ("past", py_dict [("coding", 0); ("technical", 1); ("cultural", 1); ("sports", 0); ("none", 2)])]);
    ("corrtechs", py_dict [
      ("enjoy", py_dict [("coding", 2); ("designing", 3); ("organizing", 2); ("public_speaking", 2); ("creative", 2)]);
      ("domain", py_dict [("ai", 3); ("robotics", 2); ("web", 2); ("electronics", 3); ("management", 2)]);
      ("impact", py_dict [("tech", 4); ("social", 4); ("cultural", 0); ("entrepreneurship", 3)]);
      ("past", py_dict [("coding", 2); ("technical", 3); ("cultural", 0); ("sports", 0); ("none", 2)])]);
    ("synapse", py_dict [
      ("enjoy", py_dict [("coding", 1); ("designing", 2); ("organizing", 2); ("public_speaking", 2); ("creative", 2)]);
      ("domain", py_dict [("ai", 2); ("robotics", 1); ("web", 1); ("electronics", 2); ("management", 2)]);
      ("impact", py_dict [("tech", 3); ("social", 3); ("cultural", 1); ("entrepreneurship", 2)]);
      ("past", py_dict [("coding", 1); ("technical", 3); ("cultural", 1); ("sports", 0); ("none", 2)])]);
    ("pentagram", py_dict [
      ("enjoy", py_dict [("coding", 3); ("designing", 1); ("organizing", 2); ("public_speaking", 2); ("creative", 2)]);
      ("domain", py_dict [("ai", 3); ("robotics", 1); ("web", 2); ("electronics", 1); ("management", 1)]);
      ("impact", py_dict [("tech", 3); ("social", 1); ("cultural", 1); ("entrepreneurship", 1)]);
      ("past", py_dict [("coding", 3); ("technical", 2); ("cultural", 0); ("sports", 0); ("none", 2)])]);
    ("nss", py_dict [
      ("enjoy", py_dict [("coding", 0); ("designing", 1); ("organizing", 4); ("public_speaking", 3); ("creative", 2)]);
      ("domain", py_dict [("ai", 0); ("robotics", 0); ("web", 0); ("electronics", 0); ("management", 3)]);
      ("impact", py_dict [("tech", 0); ("social", 5); ("cultural", 2); ("entrepreneurship", 1)]);
      ("past", py_dict [("coding", 0); ("technical", 0); ("cultural", 2); ("sports", 1); ("none", 3)])]);
    ("rotaract", py_dict [
      ("enjoy", py_dict [("coding", 0); ("designing", 1); ("organizing", 5); ("public_speaking", 4); ("creative", 2)]);
      ("domain", py_dict [("ai", 0); ("robotics", 0); ("web", 0); ("electronics", 0); ("management", 4)]);
      ("impact", py_dict [("tech", 0); ("social", 5); ("cultural", 2); ("entrepreneurship", 2)]);
      ("past", py_dict [("coding", 0); ("technical", 0); ("cultural", 2); ("sports", 1); ("none", 3)])]);
    ("leosatva", py_dict [
      ("enjoy", py_dict [("coding", 0); ("designing", 1); ("organizing", 4); ("public_speaking", 4); ("creative", 2)]);
      ("domain", py_dict [("ai", 0); ("robotics", 0); ("web", 0); ("electronics", 0); ("management", 3)]);
      ("impact", py_dict [("tech", 0); ("social", 5); ("cultural", 1); ("entrepreneurship", 2)]);
      ("past", py_dict [("coding", 0); ("technical", 0); ("cultural", 1); ("sports", 1); ("none", 3)])]);
    ("mountaineering", py_dict [
      ("enjoy", py_dict [("coding", 0); ("designing", 1); ("organizing", 2); ("public_speaking", 1); ("creative", 3)]);
      ("domain", py_dict [("ai", 0); ("robotics", 0); ("web", 0); ("electronics", 0); ("management", 1)]);
      ("impact", py_dict [("tech", 0); ("social", 3); ("cultural", 2); ("entrepreneurship", 1)]);
      ("past", py_dict [("coding", 0); ("technical", 0); ("cultural", 1); ("sports", 5); ("none", 2)])]);
    ("respawn", py_dict [
      ("enjoy", py_dict [("coding", 1); ("designing", 2); ("organizing", 3); ("public_speaking", 1); ("creative", 3)]);
      ("domain", py_dict [("ai", 1); ("robotics", 0); ("web", 1); ("electronics", 0); ("management", 2)]);
      ("impact", py_dict [("tech", 2); ("social", 3); ("cultural", 3); ("entrepreneurship", 1)]);
      ("past", py_dict [("coding", 1); ("technical", 1); ("cultural", 2); ("sports", 3); ("none", 2)])]);
    ("ninaad", py_dict [
      ("enjoy", py_dict [("coding", 0); ("designing", 1); ("organizing", 1); ("public_speaking", 3); ("creative", 5)]);
      ("domain", py_dict [("ai", 0); ("robotics", 0); ("web", 0); ("electronics", 0); ("management", 1)]);
      ("impact", py_dict [("tech", 0); ("social", 2); ("cultural", 5); ("entrepreneurship", 0)]);
      ("past", py_dict [("coding", 0); ("technical", 0); ("cultural", 5); ("sports", 0); ("none", 2)])]);
    ("groovehouse", py_dict [
      ("enjoy", py_dict [("coding", 0); ("designing", 2); ("organizing", 2); ("public_speaking", 3); ("creative", 5)]);
      ("domain", py_dict [("ai", 0); ("robotics", 0); ("web", 1); ("electronics", 1); ("management", 1)]);
      ("impact", py_dict [("tech", 0); ("social", 2); ("cultural", 5); ("entrepreneurship", 1)]);
      ("past", py_dict [("coding", 0); ("technical", 0); ("cultural", 5); ("sports", 0); ("none", 2)])]);
    ("paramvah", py_dict [
      ("enjoy", py_dict [("coding", 0); ("designing", 2); ("organizing", 1); ("public_speaking", 2); ("creative", 5)]);
      ("domain", py_dict [("ai", 0); ("robotics", 0); ("web", 0); ("electronics", 0); ("management", 1)]);
      ("impact", py_dict [("tech", 0); ("social", 2); ("cultural", 5); ("entrepreneurship", 0)]);
      ("past", py_dict [("coding", 0); ("technical", 0); ("cultural", 5); ("sports", 1); ("none", 2)])]);
    ("danzaddix", py_dict [
      ("enjoy", py_dict [("coding", 0); ("designing", 2); ("organizing", 1); ("public_speaking", 2); ("creative", 5)]);
      ("domain", py_dict [("ai", 0); ("robotics", 0); ("web", 0); ("electronics", 0); ("management", 1)]);
      ("impact", py_dict [("tech", 0); ("social", 2); ("cultural", 5); ("entrepreneurship", 0)]);
      ("past", py_dict [("coding", 0); ("technical", 0); ("cultural", 5); ("sports", 1); ("none", 2)])]);
    ("inksanity", py_dict [
      ("enjoy", py_dict [("coding", 0); ("designing", 1); ("organizing", 2); ("public_speaking", 5); ("creative", 4)]);
      ("domain", py_dict [("ai", 0); ("robotics", 0); ("web", 1); ("electronics", 0); ("management", 2)]);
      ("impact", py_dict [("tech", 0); ("social", 3); ("cultural", 5); ("entrepreneurship", 1)]);
      ("past", py_dict [("coding", 0); ("technical", 0); ("cultural", 5); ("sports", 0); ("none", 2)])]);
    ("finearts", py_dict [
      ("enjoy", py_dict [("coding", 0); ("designing", 3); ("organizing", 1); ("public_speaking", 1); ("creative", 5)]);
      ("domain", py_dict [("ai", 0); ("robotics", 0); ("web", 1); ("electronics", 0); ("management", 0)]);
      ("impact", py_dict [("tech", 0); ("social", 2); ("cultural", 5); ("entrepreneurship", 0)]);
      ("past", py_dict [("coding", 0); ("technical", 0); ("cultural", 5); ("sports", 0); ("none", 2)])]);
    ("falcons", py_dict [
      ("enjoy", py_dict [("coding", 1); ("designing", 4); ("organizing", 2); ("public_speaking", 1); ("creative", 5)]);
      ("domain", py_dict [("ai", 1); ("robotics", 1); ("web", 2); ("electronics", 1); ("management", 1)]);
      ("impact", py_dict [("tech", 2); ("social", 2); ("cultural", 5); ("entrepreneurship", 1)]);
      ("past", py_dict [("coding", 0); ("technical", 1); ("cultural", 4); ("sports", 1); ("none", 2)])]);
    ("pravrutthi", py_dict [
      ("enjoy", py_dict [("coding", 0); ("designing", 2); ("organizing", 2); ("public_speaking", 5); ("creative", 5)]);
      ("domain", py_dict [("ai", 0); ("robotics", 0); ("web", 0); ("electronics", 0); ("management", 1)]);
      ("impact", py_dict [("tech", 0); ("social", 3); ("cultural", 5); ("entrepreneurship", 0)]);
      ("past", py_dict [("coding", 0); ("technical", 0); ("cultural", 5); ("sports", 0); ("none", 2)])]);
    ("panache", py_dict [
      ("enjoy", py_dict [("coding", 0); ("designing", 4); ("organizing", 3); ("public_speaking", 2); ("creative", 5)]);
      ("domain", py_dict [("ai", 0); ("robotics", 0); ("web", 1); ("electronics", 0); ("management", 2)]);
      ("impact", py_dict [("tech", 0); ("social", 2); ("cultural", 5); ("entrepreneurship", 2)]);
      ("past", py_dict [("coding", 0); ("technical", 0); ("cultural", 5); ("sports", 0); ("none", 2)])]);
    ("chiranthana", py_dict [
      ("enjoy", py_dict [("coding", 0); ("designing", 1); ("organizing", 2); ("public_speaking", 3); ("creative", 4)]);
      ("domain", py_dict [("ai", 0); ("robotics", 0); ("web", 0); ("electronics", 0); ("management", 1)]);
      ("impact", py_dict [("tech", 0); ("social", 2); ("cultural", 5); ("entrepreneurship", 0)]);
      ("past", py_dict [("coding", 0); ("technical", 0); ("cultural", 5); ("sports", 0); ("none", 2)])]);
    ("samskruthi", py_dict [
      ("enjoy", py_dict [("coding", 0); ("designing", 2); ("organizing", 2); ("public_speaking", 3); ("creative", 5)]);
      ("domain", py_dict [("ai", 0); ("robotics", 0); ("web", 0); ("electronics", 0); ("management", 1)]);
      ("impact", py_dict [("tech", 0); ("social", 2); ("cultural", 5); ("entrepreneurship", 0)]);
      ("past", py_dict [("coding", 0); ("technical", 0); ("cultural", 5); ("sports", 0); ("none", 2)])]);
    ("munsoc", py_dict [
      ("enjoy", py_dict [("coding", 0); ("designing", 1); ("organizing", 4); ("public_speaking", 5); ("creative", 2)]);
      ("domain", py_dict [("ai", 0); ("robotics", 0); ("web", 0); ("electronics", 0); ("management", 4)]);
      ("impact", py_dict [("tech", 0); ("social", 4); ("cultural", 3); ("entrepreneurship", 2)]);
      ("past", py_dict [("coding", 0); ("technical", 0); ("cultural", 3); ("sports", 0); ("none", 2)])])
  ].

Definition QUESTION_TEXT : gmap string string :=
  py_dict [
    ("enjoy", "What do you enjoy most?");
    ("time", "How much time can you commit?");
    ("domain", "Which domain are you most drawn to?");
    ("impact", "What kind of impact do you want to create?");
    ("past", "Past experience?")
  ].

Definition ANSWER_TEXT : gmap string (gmap string string) :=
  py_dict [
    ("enjoy", py_dict [
      ("coding", "Coding / problem solving");
      ("designing", "Designing and building things");
      ("organizing", "Organizing events");
      ("public_speaking", "Public speaking");
      ("creative", "Creative arts")]);
    ("domain", py_dict [
      ("ai", "Artificial Intelligence / Data Science");
      ("robotics", "Robotics / IoT");
      ("web", "Web / Mobile Development");
      ("electronics", "Electronics / Hardware");
      ("management", "Management / Entrepreneurship")]);
    ("impact", py_dict [
      ("tech", "Technological innovation");
      ("social", "Social change");
      ("cultural", "Cultural enrichment");
      ("entrepreneurship", "Entrepreneurship / Business")]);
    ("past", py_dict [
      ("coding", "Coding competitions");
      ("technical", "Technical projects");
      ("cultural", "Cultural events");
      ("sports", "Sports events");
      ("none", "None, first time!")])
  ].

(** ** [calculate_club_score] *)

(** One iteration of the loop over [responses.items()]; the accumulator is
    the pair [(total_score, reasoning)]. *)
Definition score_step (rules : gmap string (gmap string Z))
    (acc : Z * list ReasoningItem) (item : string * string)
    : result (Z * list ReasoningItem) :=
  let '(total_score, reasoning) := acc in
  let '(question_key, answer_value) := item in
  if String.eqb question_key "time" then Ok (total_score, reasoning)
  else
    match rules !! question_key with
    | Some answers =>
        match answers !! answer_value with
        | Some contribution =>
            let total_score := total_score + contribution in
            if 0 <? contribution then
              q ←! getitem QUESTION_TEXT question_key;
              texts ←! getitem ANSWER_TEXT question_key;
              Ok (total_score,
                  reasoning ++ [{| question := q;
                                   answer := dict_get texts answer_value answer_value;
                                   contribution := contribution |}])
            else Ok (total_score, reasoning)
        | None => Ok (total_score, reasoning)
        end
    | None => Ok (total_score, reasoning)
    end.

Definition calculate_club_score (table : gmap string (gmap string (gmap string Z)))
    (club_slug : string) (responses : list (string * string))
    : result (Z * list ReasoningItem) :=
  let rules := dict_get table club_slug ∅ in
  for_each (score_step rules) responses (0, []).

(** ** Reference definitions for the scoring claims *)

(** The weight the rule of one club gives to an answer: the configured
    integer when both the question and the answer token exist in the rule,
    zero otherwise. *)
Definition rule_weight (rules : gmap string (gmap string Z))
    (question_key answer_value : string) : Z :=
  match rules !! question_key with
  | Some answers => default 0 (answers !! answer_value)
  | None => 0
  end.

Definition table_weight (table : gmap string (gmap string (gmap string Z)))
    (club_slug question_key answer_value : string) : Z :=
  rule_weight (dict_get table club_slug ∅) question_key answer_value.

(** The entries of a response dictionary other than [time], in iteration
    order. *)
Definition scored_entries (responses : list (string * string)) : list (string * string) :=
  filter (λ kv, kv.1 ≠ "time") responses.

Definition Zsum (l : list Z) : Z := foldr Z.add 0 l.

Definition weight_sum (table : gmap string (gmap string (gmap string Z)))
    (club_slug : string) (responses : list (string * string)) : Z :=
  Zsum (map (λ kv, table_weight table club_slug kv.1 kv.2) (scored_entries responses)).

(** The entries that are explained: those with a strictly positive weight. *)
Definition explained_entries (table : gmap string (gmap string (gmap string Z)))
    (club_slug : string) (responses : list (string * string)) : list (string * string) :=
  filter (λ kv, 0 < table_weight table club_slug kv.1 kv.2) (scored_entries responses).

(** What the reasoning item of an explained entry must be: the text of the
    question, the text of the answer (the raw token when it has no text) and
    the weight of the rule. *)
Definition explains_rule (rules : gmap string (gmap string Z))
    (kv : string * string) (item : ReasoningItem) : Prop :=
  QUESTION_TEXT !! kv.1 = Some (question item) ∧
  (∃ texts, ANSWER_TEXT !! kv.1 = Some texts ∧
            answer item = default kv.2 (texts !! kv.2)) ∧
  contribution item = rule_weight rules kv.1 kv.2.

Definition explains (table : gmap string (gmap string (gmap string Z)))
    (club_slug : string) (kv : string * string) (item : ReasoningItem) : Prop :=
  explains_rule (dict_get table club_slug ∅) kv item.

(** Every question key used by a rule of the table has a question text and
    a table of answer texts ([time] is skipped before any text is read). *)
Definition question_has_text (question_key : string) : bool :=
  String.eqb question_key "time" ||
  (dict_in question_key QUESTION_TEXT && dict_in question_key ANSWER_TEXT).

Definition rules_have_texts (rules : gmap string (gmap string Z)) : bool :=
  forallb (λ kv, question_has_text kv.1) (map_to_list rules).

Definition texts_cover (table : gmap string (gmap string (gmap string Z))) : bool :=
  forallb (λ kv, rules_have_texts kv.2) (map_to_list table).

(** The order in which the questions are presented (the field order of
    [AssessmentResponses], which is also the order of [QUESTION_TEXT]). *)
Definition canonical_questions : list string :=
  ["enjoy"; "time"; "domain"; "impact"; "past"].

Definition canonical_texts : list string :=
  omap (λ q, QUESTION_TEXT !! q) canonical_questions.

(** Two response dictionaries with the same keys in the same order and the
    same answers, except possibly the answer to [time]. *)
Definition differ_only_in_time (r1 r2 : list (string * string)) : Prop :=
  Forall2 (λ x y, x.1 = y.1 ∧ (x.1 ≠ "time" → x.2 = y.2)) r1 r2.

(** ** Python list and string primitives *)

(** [list.sort(key=..., reverse=...)] and [sorted(..., key=...)] are stable:
    elements with equal keys keep their relative order, also under
    [reverse=True].  A stable sort is determined by that property, so it is
    modelled by stable insertion. [precedes y x] says that [y] has to come
    strictly before [x]. *)
Fixpoint insert_by {A} (precedes : A → A → bool) (x : A) (l : list A) : list A :=
  match l with
  | [] => [x]
  | y :: l' => if precedes y x then y :: insert_by precedes x l' else x :: y :: l'
  end.

Definition stable_sort {A} (precedes : A → A → bool) (l : list A) : list A :=
  foldr (insert_by precedes) [] l.

Definition key_precedes {A} (key : A → Z) (reverse : bool) (y x : A) : bool :=
  if reverse then key x <? key y else key y <? key x.

Definition py_sorted {A} (key : A → Z) (reverse : bool) (l : list A) : list A :=
  stable_sort (key_precedes key reverse) l.

(** The slice [l[:n]]: a negative bound counts from the end of the list. *)
Definition slice_to {A} (n : Z) (l : list A) : list A :=
  if 0 <=? n then take (Z.to_nat n) l
  else take (Z.to_nat (Z.of_nat (length l) + n)) l.

(** [enumerate(l, start)]. *)
Fixpoint enumerate {A} (start : Z) (l : list A) : list (Z * A) :=
  match l with
  | [] => []
  | x :: l' => (start, x) :: enumerate (start + 1) l'
  end.

(** [o or dflt] for an optional string: [None] and the empty string are
    both falsy. *)
Definition str_or (o : option string) (dflt : string) : string :=
  match o with
  | Some (String c s) => String c s
  | _ => dflt
  end.

Definition is_ascii_upper (c : ascii) : bool :=
  let n := nat_of_ascii c in (65 <=? n)%nat && (n <=? 90)%nat.

Definition is_ascii_lower (c : ascii) : bool :=
  let n := nat_of_ascii c in (97 <=? n)%nat && (n <=? 122)%nat.

Definition to_upper (c : ascii) : ascii :=
  if is_ascii_lower c then ascii_of_nat (nat_of_ascii c - 32) else c.

Definition to_lower (c : ascii) : ascii :=
  if is_ascii_upper c then ascii_of_nat (nat_of_ascii c + 32) else c.

(** [s.title()]: a cased character is upper-cased when the character before
    it is not cased and lower-cased when it is. *)
Fixpoint title_from (previous_is_cased : bool) (s : string) : string :=
  match s with
  | EmptyString => EmptyString
  | String c s' =>
      if is_ascii_lower c || is_ascii_upper c then
        String (if previous_is_cased then to_lower c else to_upper c) (title_from true s')
      else String c (title_from false s')
  end.

Definition str_title (s : string) : string := title_from false s.

(** [s.replace(old, new)] for one-character [old] and [new]. *)
Fixpoint str_replace_char (old new : ascii) (s : string) : string :=
  match s with
  | EmptyString => EmptyString
  | String c s' =>
      String (if Ascii.eqb c old then new else c) (str_replace_char old new s')
  end.

(** ** UUIDs *)

(** A [uuid.UUID] is its 128-bit integer. *)
Definition UUID : Type := Z.

Definition hex_digit (n : Z) : ascii :=
  if n <? 10 then ascii_of_nat (Z.to_nat (48 + n)) else ascii_of_nat (Z.to_nat (87 + n)).

(** The [count] hexadecimal digits of [u] from digit position [count - 1]
    down to position 0. *)
Fixpoint hex_digits (count : nat) (u : Z) : string :=
  match count with
  | O => EmptyString
  | S k => String (hex_digit (Z.land (Z.shiftr u (4 * Z.of_nat k)) 15)) (hex_digits k u)
  end.

(** [str(u)]: the 32 digits in groups of 8-4-4-4-12. *)
Definition UUID_str (u : UUID) : string :=
  hex_digits 8 (Z.shiftr u 96) +:+ "-" +:+
  hex_digits 4 (Z.shiftr u 80) +:+ "-" +:+
  hex_digits 4 (Z.shiftr u 64) +:+ "-" +:+
  hex_digits 4 (Z.shiftr u 48) +:+ "-" +:+
  hex_digits 12 u.

Definition hex_value (c : ascii) : option Z :=
  let n := Z.of_nat (nat_of_ascii c) in
  if (48 <=? n) && (n <=? 57) then Some (n - 48)
  else if (97 <=? n) && (n <=? 102) then Some (n - 87)
  else if (65 <=? n) && (n <=? 70) then Some (n - 55)
  else None.

Fixpoint parse_hex (acc : Z) (s : string) : option Z :=
  match s with
  | EmptyString => Some acc
  | String c s' =>
      match hex_value c with
      | Some d => parse_hex (16 * acc + d) s'
      | None => None
      end
  end.

Fixpoint str_remove_char (old : ascii) (s : string) : string :=
  match s with
  | EmptyString => EmptyString
  | String c s' =>
      if Ascii.eqb c old then str_remove_char old s' else String c (str_remove_char old s')
  end.

(** A reference instance of the constructor [uuid.UUID(hex)] on the plain
    forms: hyphens are dropped, 32 hexadecimal digits are required; [None]
    stands for the [ValueError] the constructor raises on anything else.
    The library accepts a few more spellings (a [urn:uuid:] prefix, braces);
    the lookup below takes the constructor as a parameter and the
    theorems hold for any such constructor. *)
Definition UUID_of_hex (hex : string) : option UUID :=
  let digits := str_remove_char "-"%char hex in
  if (String.length digits =? 32)%nat then parse_hex 0 digits else None.

(** ** Database models ([app/models]) *)

Module Club.
Record t := {
  id : UUID;
  name : string;
  slug : string;
  tagline : option string;
  logo_url : option string;
  is_active : bool
}.
End Club.

Module Assessment.
Record t := {
  id : UUID;
  user_id : option string;
  responses : list (string * string);
  created_at : Z
}.
End Assessment.

(** A row of [recommendations]. Its own primary key, a generated UUID that
    no code reads, is left out; the [Integer] columns hold a [Z]. *)
Module Recommendation.
Record t := {
  assessment_id : UUID;
  club_id : string;
  score : Z;
  rank : Z;
  reasoning : option (list ReasoningItem)
}.
End Recommendation.

(** The committed state of the three tables the engine touches, each in
    row order. *)
Record DB := {
  clubs : list Club.t;
  assessments : list Assessment.t;
  recommendations : list Recommendation.t
}.

(** [db.query(Club).filter(Club.is_active == True).all()]. *)
Definition active_clubs (db : DB) : list Club.t :=
  filter (λ c, Club.is_active c = true) (clubs db).

(** [club_service.get_club_by_slug]: [.filter(Club.slug == slug).first()]. *)
Definition get_club_by_slug (db : DB) (slug : string) : option Club.t :=
  head (filter (λ c, Club.slug c = slug) (clubs db)).

(** The relationship [assessment.recommendations]. *)
Definition assessment_recommendations (db : DB) (a : Assessment.t) : list Recommendation.t :=
  filter (λ r, Recommendation.assessment_id r = Assessment.id a) (recommendations db).

(** [db.add(assessment); db.commit()]: the primary key has to be new.  The
    table [users] is not part of the state, and the owner is stored as it is
    given: the commit is that of an assessment without owner or of one owned
    by the authenticated user, whose foreign key holds.  A submission that
    is not authenticated and yet names an owner is outside the model (the
    database refuses an owner that is not the UUID of a user), and the
    statements that a submission succeeds are made for the other
    submissions. *)
Definition insert_assessment (db : DB) (a : Assessment.t) : result DB :=
  if bool_decide (Assessment.id a ∈ map Assessment.id (assessments db)) then
    Raise (IntegrityError "duplicate key value violates unique constraint")
  else
    Ok {| clubs := clubs db;
          assessments := assessments db ++ [a];
          recommendations := recommendations db |}.

Definition insert_recommendations (db : DB) (rows : list Recommendation.t) : DB :=
  {| clubs := clubs db;
     assessments := assessments db;
     recommendations := recommendations db ++ rows |}.

(** ** [get_club_recommendations] *)

(** An element of the list [scored_clubs]. *)
Record ScoredClub := {
  sc_club : ClubSummary;
  sc_score : Z;
  sc_reasoning : list ReasoningItem
}.

Definition club_dict (db_club : Club.t) : ClubSummary :=
  {| cs_id := UUID_str (Club.id db_club);
     cs_name := Club.name db_club;
     cs_slug := Club.slug db_club;
     cs_tagline := str_or (Club.tagline db_club) "";
     cs_logo_url := str_or (Club.logo_url db_club)
                      ("/images/clubs/" +:+ Club.slug db_club +:+ ".jpg") |}.

(** One iteration of the loop over [db_clubs]. *)
Definition score_club_step (table : gmap string (gmap string (gmap string Z)))
    (responses : list (string * string))
    (scored_clubs : list ScoredClub) (db_club : Club.t) : result (list ScoredClub) :=
  if dict_in (Club.slug db_club) table then
    sr ←! calculate_club_score table (Club.slug db_club) responses;
    Ok (scored_clubs ++ [{| sc_club := club_dict db_club;
                            sc_score := sr.1;
                            sc_reasoning := sr.2 |}])
  else Ok scored_clubs.

Definition get_club_recommendations (table : gmap string (gmap string (gmap string Z)))
    (db : DB) (responses : list (string * string)) (top_n : Z)
    : result (list ClubRecommendation) :=
  let db_clubs := active_clubs db in
  match db_clubs with
  | [] => Ok []
  | _ =>
      scored_clubs ←! for_each (score_club_step table responses) db_clubs [];
      match scored_clubs with
      | [] => Ok []
      | _ =>
          let scored_clubs := py_sorted sc_score true scored_clubs in
          Ok (map (λ ri, {| club := sc_club ri.2;
                            score := sc_score ri.2;
                            rank := ri.1;
                            reasoning := sc_reasoning ri.2 |})
                  (enumerate 1 (slice_to top_n scored_clubs)))
      end
  end.

(** ** [create_assessment] *)

Definition recommendation_row (assessment_id : UUID) (rec : ClubRecommendation)
    : Recommendation.t :=
  {| Recommendation.assessment_id := assessment_id;
     Recommendation.club_id := cs_slug (club rec);
     Recommendation.score := score rec;
     Recommendation.rank := rank rec;
     Recommendation.reasoning := Some (reasoning rec) |}.

(** [new_id] is the value of [uuid.uuid4()] and [now] the value of
    [datetime.utcnow] at the insert. The assessment is committed before the
    recommendations are computed, so it stays in the database when a later
    step raises. *)
Definition create_assessment (table : gmap string (gmap string (gmap string Z)))
    (db : DB) (assessment_data : AssessmentCreate) (new_id : UUID) (now : Z)
    : DB * result Assessment.t :=
  let assessment :=
    {| Assessment.id := new_id;
       Assessment.user_id := ac_user_id assessment_data;
       Assessment.responses := model_dump (ac_responses assessment_data);
       Assessment.created_at := now |} in
  match insert_assessment db assessment with
  | Raise e => (db, Raise e)
  | Ok db1 =>
      match get_club_recommendations table db1
              (model_dump (ac_responses assessment_data)) 10 with
      | Raise e => (db1, Raise e)
      | Ok recommendations =>
          (insert_recommendations db1
             (map (recommendation_row (Assessment.id assessment)) recommendations),
           Ok assessment)
      end
  end.

(** ** The endpoints ([app/api/v1/assessment.py]) *)

Record AssessmentResult := {
  ar_assessment_id : string;
  ar_recommendations : list ClubRecommendation;
  ar_created_at : Z
}.

Inductive http_result (A : Type) : Type :=
| Response (a : A)
| HTTPException (status_code : Z) (detail : string).
Arguments Response {A} a.
Arguments HTTPException {A} status_code detail.

Definition HTTP_404_NOT_FOUND : Z := 404.
Definition HTTP_500_INTERNAL_SERVER_ERROR : Z := 500.

(** [str(e)]. *)
Definition exn_str (e : exn) : string :=
  match e with
  | KeyError key => "'" +:+ key +:+ "'"
  | ValueError msg => msg
  | IntegrityError msg => msg
  end.

(** [POST /]: [current_user] is the id of the authenticated user, if any. *)
Definition submit_assessment (table : gmap string (gmap string (gmap string Z)))
    (db : DB) (assessment_data : AssessmentCreate) (current_user : option UUID)
    (new_id : UUID) (now : Z) : DB * http_result AssessmentResult :=
  let assessment_data :=
    match current_user with
    | Some uid => {| ac_responses := ac_responses assessment_data;
                     ac_user_id := Some (UUID_str uid) |}
    | None => assessment_data
    end in
  let failed (e : exn) :=
    HTTPException HTTP_500_INTERNAL_SERVER_ERROR
      ("Assessment processing failed: " +:+ exn_str e) in
  match create_assessment table db assessment_data new_id now with
  | (db', Raise e) => (db', failed e)
  | (db', Ok assessment) =>
      match get_club_recommendations table db'
              (model_dump (ac_responses assessment_data)) 10 with
      | Raise e => (db', failed e)
      | Ok recommendations =>
          (db', Response {| ar_assessment_id := UUID_str (Assessment.id assessment);
                            ar_recommendations := recommendations;
                            ar_created_at := Assessment.created_at assessment |})
      end
  end.

(** The placeholder for a club that is no longer in the directory. *)
Definition fallback_club_data (club_id : string) : ClubSummary :=
  {| cs_id := club_id;
     cs_name := str_title (str_replace_char "-" " " club_id);
     cs_slug := club_id;
     cs_tagline := "Club information unavailable";
     cs_logo_url := "" |}.

Definition live_club_data (club : Club.t) : ClubSummary :=
  {| cs_id := UUID_str (Club.id club);
     cs_name := Club.name club;
     cs_slug := Club.slug club;
     cs_tagline := str_or (Club.tagline club) "";
     cs_logo_url := str_or (Club.logo_url club) "" |}.

(** The body of the loop of [get_assessment] over the stored rows. *)
Definition reconstruct_recommendation (db : DB) (rec : Recommendation.t)
    : ClubRecommendation :=
  let club_data :=
    match get_club_by_slug db (Recommendation.club_id rec) with
    | Some club => live_club_data club
    | None => fallback_club_data (Recommendation.club_id rec)
    end in
  {| club := club_data;
     score := Recommendation.score rec;
     rank := Recommendation.rank rec;
     reasoning := match Recommendation.reasoning rec with
                  | Some items => items
                  | None => []
                  end |}.

Section Lookup.

(** The constructor [uuid.UUID(hex)]; [None] is its [ValueError]. *)
Variable UUID_of_str : string → option UUID.

Definition get_assessment_by_id (db : DB) (assessment_id : string) : option Assessment.t :=
  match UUID_of_str assessment_id with
  | Some assessment_uuid =>
      head (filter (λ a, Assessment.id a = assessment_uuid) (assessments db))
  | None => None
  end.

(** [GET /{assessment_id}]. *)
Definition get_assessment (db : DB) (assessment_id : string) : http_result AssessmentResult :=
  match get_assessment_by_id db assessment_id with
  | None => HTTPException HTTP_404_NOT_FOUND "Assessment not found"
  | Some assessment =>
      Response
        {| ar_assessment_id := UUID_str (Assessment.id assessment);
           ar_recommendations :=
             map (reconstruct_recommendation db)
                 (py_sorted Recommendation.rank false
                    (assessment_recommendations db assessment));
           ar_created_at := Assessment.created_at assessment |}
  end.

End Lookup.

(** ** Reference definitions for the recommendation claims *)

(** The pair that [calculate_club_score] returns. *)
Definition score_of (table : gmap string (gmap string (gmap string Z)))
    (club_slug : string) (responses : list (string * string))
    : Z * list ReasoningItem :=
  match calculate_club_score table club_slug responses with
  | Ok sr => sr
  | Raise _ => (0, [])
  end.

(** The active clubs that have an entry in the scoring table, in the order
    of the directory. *)
Definition candidate_clubs (table : gmap string (gmap string (gmap string Z)))
    (db_clubs : list Club.t) : list Club.t :=
  filter (λ c, is_Some (table !! Club.slug c)) db_clubs.

Definition scored_club (table : gmap string (gmap string (gmap string Z)))
    (responses : list (string * string)) (db_club : Club.t) : ScoredClub :=
  {| sc_club := club_dict db_club;
     sc_score := (score_of table (Club.slug db_club) responses).1;
     sc_reasoning := (score_of table (Club.slug db_club) responses).2 |}.

Definition ranked (ri : Z * ScoredClub) : ClubRecommendation :=
  {| club := sc_club ri.2;
     score := sc_score ri.2;
     rank := ri.1;
     reasoning := sc_reasoning ri.2 |}.

(** The order a sort by [key] establishes. *)
Definition ordered {A} (key : A → Z) (reverse : bool) (x y : A) : Prop :=
  if reverse then key y ≤ key x else key x ≤ key y.

(** The part of a recommendation that is stored and read back: score, rank
    and reasoning. *)
Definition stored_part (rec : ClubRecommendation) : Z * Z * list ReasoningItem :=
  (score rec, rank rec, reasoning rec).

(** The foreign key of [recommendations]: every row belongs to a stored
    assessment. *)
Definition foreign_keys_hold (db : DB) : Prop :=
  ∀ r, r ∈ recommendations db →
       Recommendation.assessment_id r ∈ map Assessment.id (assessments db).

(** The owner the endpoint stores: the authenticated user, if there is one. *)
Definition owner_of (assessment_data : AssessmentCreate) (current_user : option UUID)
    : option string :=
  match current_user with
  | Some uid => Some (UUID_str uid)
  | None => ac_user_id assessment_data
  end.

Definition new_assessment (assessment_data : AssessmentCreate)
    (current_user : option UUID) (new_id : UUID) (now : Z) : Assessment.t :=
  {| Assessment.id := new_id;
     Assessment.user_id := owner_of assessment_data current_user;
     Assessment.responses := model_dump (ac_responses assessment_data);
     Assessment.created_at := now |}.

(** ** Sample data *)

Definition sample_club (id : UUID) (name slug : string) (is_active : bool) : Club.t :=
  {| Club.id := id; Club.name := name; Club.slug := slug;
     Club.tagline := None; Club.logo_url := None; Club.is_active := is_active |}.

(** A directory of four active clubs, three of them in the scoring table,
    and one inactive club. *)
Definition sample_db : DB :=
  {| clubs := [sample_club 1 "ACM" "acm" true;
               sample_club 2 "Chess Club" "chess" true;
               sample_club 3 "NSS" "nss" true;
               sample_club 4 "Code.io" "codeio" true;
               sample_club 5 "Robotics" "robotics" false];
     assessments := [];
     recommendations := [] |}.

(** A directory without any club of the scoring table. *)
Definition uncovered_db : DB :=
  {| clubs := [sample_club 2 "Chess Club" "chess" true];
     assessments := [];
     recommendations := [] |}.

Definition sample_responses : AssessmentResponses :=
  {| enjoy := "coding"; time := "high"; domain := "ai";
     impact := "tech"; past := "coding" |}.

Definition sample_submission : AssessmentCreate :=
  {| ac_responses := sample_responses; ac_user_id := None |}.

(** A database with one stored assessment: its two recommendation rows
    are stored out of rank order, and the club of the first one has left the
    directory. *)
Definition archived_assessment : Assessment.t :=
  {| Assessment.id := 7;
     Assessment.user_id := None;
     Assessment.responses := model_dump sample_responses;
     Assessment.created_at := 1000 |}.

Definition archived_db : DB :=
  {| clubs := [sample_club 1 "ACM" "acm" true];
     assessments := [archived_assessment];
     recommendations :=
       [ {| Recommendation.assessment_id := 7;
            Recommendation.club_id := "old-robotics-club";
            Recommendation.score := 9;
            Recommendation.rank := 2;
            Recommendation.reasoning := None |};
         {| Recommendation.assessment_id := 7;
            Recommendation.club_id := "acm";
            Recommendation.score := 14;
            Recommendation.rank := 1;
            Recommendation.reasoning := Some [] |} ] |}.

(** A database with a stored assessment that has no recommendation. *)
Definition empty_result_db : DB :=
  {| clubs := [sample_club 2 "Chess Club" "chess" true];
     assessments := [archived_assessment];
     recommendations := [] |}.

(** ** The assessment history of a user *)

(** A value of a response dictionary; keys of a dictionary are unique. *)
Fixpoint dict_lookup (k : string) (d : list (string * string)) : option string :=
  match d with
  | [] => None
  | (k', v) :: d' => if String.eqb k' k then Some v else dict_lookup k d'
  end.

(** The validation of a stored response dictionary against
    [AssessmentResponses]: every field is required, other keys are ignored;
    [None] is the validation error. *)
Definition validate_responses (d : list (string * string)) : option AssessmentResponses :=
  enjoy ← dict_lookup "enjoy" d;
  time ← dict_lookup "time" d;
  domain ← dict_lookup "domain" d;
  impact ← dict_lookup "impact" d;
  past ← dict_lookup "past" d;
  Some {| enjoy := enjoy; time := time; domain := domain;
          impact := impact; past := past |}.

(** The schema [AssessmentResponse]. *)
Record AssessmentResponse := {
  resp_id : UUID;
  resp_user_id : option UUID;
  resp_responses : AssessmentResponses;
  resp_created_at : Z
}.

Definition HTTP_403_FORBIDDEN : Z := 403.

Section History.

(** The constructor [uuid.UUID(hex)]; [None] is its [ValueError]. *)
Variable UUID_of_str : string → option UUID.

(** The value of the column [user_id]: the UUID that the stored text
    denotes. *)
Definition owner_uuid (a : Assessment.t) : option UUID :=
  Assessment.user_id a ≫= UUID_of_str.

(** [AssessmentService.get_user_assessments]: the rows of the user, newest
    first, cut at [limit].  The limit is a row count; rows of equal
    [created_at] are taken in row order. *)
Definition get_user_assessments (db : DB) (user_id : string) (limit : nat)
    : list Assessment.t :=
  match UUID_of_str user_id with
  | Some user_uuid =>
      take limit
        (py_sorted Assessment.created_at true
           (filter (λ a, owner_uuid a = Some user_uuid) (assessments db)))
  | None => []
  end.

Definition assessment_response (assessment : Assessment.t) : option AssessmentResponse :=
  responses ← validate_responses (Assessment.responses assessment);
  Some {| resp_id := Assessment.id assessment;
          resp_user_id := owner_uuid assessment;
          resp_responses := responses;
          resp_created_at := Assessment.created_at assessment |}.

(** [GET /user/{user_id}] for the authenticated user [current_user].  A
    stored dictionary that does not validate makes the request fail. *)
Definition user_assessments_endpoint (db : DB) (user_id : string) (current_user : UUID)
    : http_result (list AssessmentResponse) :=
  if negb (String.eqb (UUID_str current_user) user_id) then
    HTTPException HTTP_403_FORBIDDEN "You can only access your own assessments"
  else
    match mapM assessment_response (get_user_assessments db user_id 10) with
    | Some responses => Response responses
    | None => HTTPException HTTP_500_INTERNAL_SERVER_ERROR "Internal Server Error"
    end.

End History.

(** ** Reference definitions for further properties *)

(** The reasoning item of an entry, read off the tables. *)
Definition reason_item (rules : gmap string (gmap string Z)) (kv : string * string)
    : ReasoningItem :=
  {| question := default "" (QUESTION_TEXT !! kv.1);
     answer := default kv.2 (ANSWER_TEXT !! kv.1 ≫= λ texts, texts !! kv.2);
     contribution := rule_weight rules kv.1 kv.2 |}.

(** Every weight of the table lies between [lo] and [hi]. *)
Definition weights_within (lo hi : Z)
    (table : gmap string (gmap string (gmap string Z))) : bool :=
  forallb (λ club, forallb (λ rule,
             forallb (λ w, (lo <=? w.2) && (w.2 <=? hi)) (map_to_list rule.2))
           (map_to_list club.2))
          (map_to_list table).

(** A question key without a question text or without answer texts. *)
Definition lacks_text (question_key : string) : Prop :=
  QUESTION_TEXT !! question_key = None ∨ ANSWER_TEXT !! question_key = None.

(** A recommendation without its rank. *)
Definition unranked (rec : ClubRecommendation) : ScoredClub :=
  {| sc_club := club rec; sc_score := score rec; sc_reasoning := reasoning rec |}.

(** The scored candidates of a request, in directory order. *)
Definition scored_candidates (table : gmap string (gmap string (gmap string Z)))
    (db : DB) (responses : list (string * string)) : list ScoredClub :=
  map (scored_club table responses) (candidate_clubs table (active_clubs db)).

(** The later state keeps the directory and every stored row of the
    earlier one. *)
Definition db_extends (db db' : DB) : Prop :=
  clubs db' = clubs db ∧
  assessments db `prefix_of` assessments db' ∧
  recommendations db `prefix_of` recommendations db'.

Definition primary_keys_unique (db : DB) : Prop :=
  NoDup (map Assessment.id (assessments db)).

(** A table with a rule for a question that has no text. *)
Definition untexted_table : gmap string (gmap string (gmap string Z)) :=
  py_dict [("chess", py_dict [("style", py_dict [("blitz", 2)])])].

(** A database with two assessments of user 3 and one of user 4. *)
Definition history_db : DB :=
  {| clubs := [sample_club 1 "ACM" "acm" true];
     assessments :=
       [ {| Assessment.id := 11;
            Assessment.user_id := Some (UUID_str 3);
            Assessment.responses := model_dump sample_responses;
            Assessment.created_at := 100 |};
         {| Assessment.id := 12;
            Assessment.user_id := Some (UUID_str 4);
            Assessment.responses := model_dump sample_responses;
            Assessment.created_at := 200 |};
         {| Assessment.id := 13;
            Assessment.user_id := Some (UUID_str 3);
            Assessment.responses := model_dump sample_responses;
            Assessment.created_at := 300 |} ];
     recommendations := [] |}.

(** A directory of two clubs with the same rules, hence always the same
    score. *)
Definition tie_db : DB :=
  {| clubs := [sample_club 1 "Aero Club" "aero" true;
               sample_club 2 "Team Aquila" "aquila" true];
     assessments := [];
     recommendations := [] |}.

(** * Properties *)

(** ** The shipped tables *)

Example acm_example :
  calculate_club_score CLUB_SCORING_RULES "acm"
    [("enjoy", "coding"); ("domain", "ai"); ("impact", "tech");
     ("past", "coding"); ("time", "high")]
  = Ok (14, [ {| question := "What do you enjoy most?";
                 answer := "Coding / problem solving"; contribution := 4 |};
              {| question := "Which domain are you most drawn to?";
                 answer := "Artificial Intelligence / Data Science"; contribution := 3 |};
              {| question := "What kind of impact do you want to create?";
                 answer := "Technological innovation"; contribution := 4 |};
              {| question := "Past experience?";
                 answer := "Coding competitions"; contribution := 3 |} ]).
Proof. vm_compute. reflexivity. Qed.

Lemma CLUB_SCORING_RULES_texts_cover : texts_cover CLUB_SCORING_RULES = true.
Proof. vm_compute. reflexivity. Qed.

(** ** The scoring loop *)

Lemma for_each_cons {A S} (step : S → A → result S) x l acc :
  for_each step (x :: l) acc = bind (step acc x) (for_each step l).
Proof. reflexivity. Qed.

Lemma Zsum_app l1 l2 : Zsum (l1 ++ l2) = Zsum l1 + Zsum l2.
Proof. unfold Zsum. induction l1 as [|x l1 IH]; simpl; lia. Qed.

Lemma dict_in_true {V} (k : string) (d : gmap string V) :
  dict_in k d = true ↔ is_Some (d !! k).
Proof. unfold dict_in. apply bool_decide_eq_true. Qed.

Lemma question_has_text_spec q :
  question_has_text q = true → q ≠ "time" →
  ∃ qt texts, QUESTION_TEXT !! q = Some qt ∧ ANSWER_TEXT !! q = Some texts.
Proof.
  unfold question_has_text. intros H Hq.
  apply orb_true_iff in H as [H|H].
  - apply String.eqb_eq in H. contradiction.
  - apply andb_true_iff in H as [[qt H1]%dict_in_true [texts H2]%dict_in_true].
    eauto.
Qed.

Lemma rules_have_texts_lookup rules q answers :
  rules_have_texts rules = true → rules !! q = Some answers → q ≠ "time" →
  ∃ qt texts, QUESTION_TEXT !! q = Some qt ∧ ANSWER_TEXT !! q = Some texts.
Proof.
  unfold rules_have_texts. rewrite forallb_forall. intros H Hq Hne.
  apply question_has_text_spec; [|done].
  apply (H (q, answers)). apply list_elem_of_In. by apply elem_of_map_to_list.
Qed.

Lemma texts_cover_rules table club_slug :
  texts_cover table = true → rules_have_texts (dict_get table club_slug ∅) = true.
Proof.
  unfold texts_cover, dict_get. rewrite forallb_forall. intros H.
  destruct (table !! club_slug) as [rules|] eqn:E; simpl.
  - apply (H (club_slug, rules)). apply list_elem_of_In. by apply elem_of_map_to_list.
  - unfold rules_have_texts. by rewrite map_to_list_empty.
Qed.

Lemma score_step_spec rules t rs q a :
  rules_have_texts rules = true →
  ∃ items,
    score_step rules (t, rs) (q, a)
    = Ok (t + Zsum (map (λ kv, rule_weight rules kv.1 kv.2) (scored_entries [(q, a)])),
          rs ++ items) ∧
    Forall2 (explains_rule rules)
            (filter (λ kv, 0 < rule_weight rules kv.1 kv.2) (scored_entries [(q, a)]))
            items.
Proof.
  intros Htexts. unfold score_step, scored_entries.
  rewrite filter_cons, filter_nil. simpl.
  destruct (String.eqb q "time") eqn:Etime.
  - apply String.eqb_eq in Etime. subst q.
    rewrite decide_False by (intros H; by apply H).
    exists []. rewrite app_nil_r, filter_nil. simpl.
    split; [f_equal; f_equal; lia | constructor].
  - apply String.eqb_neq in Etime. rewrite decide_True by done.
    rewrite filter_cons, filter_nil. simpl.
    destruct (rules !! q) as [answers|] eqn:Eq.
    + destruct (answers !! a) as [c|] eqn:Ea.
      * assert (Hw : rule_weight rules q a = c)
          by (unfold rule_weight; by rewrite Eq, Ea).
        rewrite Hw. simpl.
        destruct (Z.ltb_spec 0 c) as [Hpos|Hnpos].
        -- destruct (rules_have_texts_lookup rules q answers Htexts Eq Etime)
             as (qt & texts & Hqt & Htx).
           unfold getitem. rewrite Hqt, Htx. simpl.
           rewrite decide_True by done.
           eexists [_]. split; [f_equal; f_equal; lia|].
           constructor; [|constructor].
           unfold explains_rule, dict_get. simpl. rewrite Hw. eauto.
        -- rewrite decide_False by lia. exists [].
           rewrite app_nil_r. split; [f_equal; f_equal; lia | constructor].
      * assert (Hw : rule_weight rules q a = 0)
          by (unfold rule_weight; by rewrite Eq, Ea).
        rewrite Hw. rewrite decide_False by lia. exists [].
        rewrite app_nil_r. split; [f_equal; f_equal; lia | constructor].
    + assert (Hw : rule_weight rules q a = 0)
        by (unfold rule_weight; by rewrite Eq).
      rewrite Hw. rewrite decide_False by lia. exists [].
      rewrite app_nil_r. split; [f_equal; f_equal; lia | constructor].
Qed.

Lemma scored_entries_cons kv l :
  scored_entries (kv :: l) = scored_entries [kv] ++ scored_entries l.
Proof.
  unfold scored_entries. rewrite !filter_cons, filter_nil.
  destruct (decide (kv.1 ≠ "time")); reflexivity.
Qed.

Lemma score_loop_spec rules l : ∀ t rs,
  rules_have_texts rules = true →
  ∃ items,
    for_each (score_step rules) l (t, rs)
    = Ok (t + Zsum (map (λ kv, rule_weight rules kv.1 kv.2) (scored_entries l)),
          rs ++ items) ∧
    Forall2 (explains_rule rules)
            (filter (λ kv, 0 < rule_weight rules kv.1 kv.2) (scored_entries l))
            items.
Proof.
  induction l as [|[q a] l IH]; intros t rs Htexts.
  - exists []. simpl. rewrite app_nil_r. split; [f_equal; f_equal; lia | constructor].
  - destruct (score_step_spec rules t rs q a Htexts) as (items1 & Hstep & Hexp1).
    rewrite for_each_cons, Hstep. simpl bind.
    destruct (IH (t + Zsum (map (λ kv, rule_weight rules kv.1 kv.2)
                               (scored_entries [(q, a)])))
                 (rs ++ items1) Htexts) as (items2 & Hloop & Hexp2).
    exists (items1 ++ items2). rewrite Hloop. split.
    + rewrite (scored_entries_cons (q, a) l), map_app, Zsum_app, <- app_assoc.
      f_equal. f_equal. lia.
    + rewrite (scored_entries_cons (q, a) l), filter_app.
      by apply Forall2_app.
Qed.

Lemma calculate_club_score_spec table club_slug responses :
  texts_cover table = true →
  ∃ reasoning,
    calculate_club_score table club_slug responses
    = Ok (weight_sum table club_slug responses, reasoning) ∧
    Forall2 (explains table club_slug)
            (explained_entries table club_slug responses) reasoning.
Proof.
  intros Htexts. unfold calculate_club_score.
  destruct (score_loop_spec (dict_get table club_slug ∅) responses 0 []
              (texts_cover_rules table club_slug Htexts)) as (items & Hloop & Hexp).
  exists items. split; [|exact Hexp].
  rewrite Hloop. unfold weight_sum, table_weight. simpl. reflexivity.
Qed.

(** The shipped table: every call returns. *)
Corollary shipped_score_returns club_slug responses :
  calculate_club_score CLUB_SCORING_RULES club_slug responses
  = Ok (score_of CLUB_SCORING_RULES club_slug responses) ∧
  (score_of CLUB_SCORING_RULES club_slug responses).1
  = weight_sum CLUB_SCORING_RULES club_slug responses.
Proof.
  destruct (calculate_club_score_spec CLUB_SCORING_RULES club_slug responses
              CLUB_SCORING_RULES_texts_cover) as (reasoning & Hscore & _).
  unfold score_of. rewrite Hscore. done.
Qed.

Lemma table_weight_unknown_club table club_slug q a :
  table !! club_slug = None → table_weight table club_slug q a = 0.
Proof.
  intros H. unfold table_weight, dict_get, rule_weight. rewrite H. simpl.
  by rewrite lookup_empty.
Qed.

Lemma weight_sum_unknown_club table club_slug responses :
  table !! club_slug = None → weight_sum table club_slug responses = 0.
Proof.
  intros H. unfold weight_sum.
  induction (scored_entries responses) as [|kv l IH]; [done|].
  cbn [map Zsum foldr]. rewrite table_weight_unknown_club by done.
  unfold Zsum in IH. rewrite IH. reflexivity.
Qed.

Lemma explained_entries_unknown_club table club_slug responses :
  table !! club_slug = None → explained_entries table club_slug responses = [].
Proof.
  intros H. unfold explained_entries.
  induction (scored_entries responses) as [|kv l IH]; [done|].
  rewrite filter_cons, decide_False; [done|].
  rewrite table_weight_unknown_club by done. lia.
Qed.

(** C1. For every club identifier and every response dictionary,
    [calculate_club_score] returns (it does not raise) a total equal to the
    sum, over the entries of the dictionary other than [time], of the weight
    of the scoring table for (club, question, answer), where a weight is the
    configured integer when both the question and the answer token exist in
    the rule of the club and zero otherwise: an unknown club scores zero with
    an empty reasoning, and an unknown question or answer token contributes
    zero.  For the responses enjoy=coding, domain=ai, impact=tech,
    past=coding, time=high and a club whose rule gives these answers the
    weights 4, 3, 4 and 3, the total is 14. *)
Theorem calculate_club_score_total table club_slug responses :
  texts_cover table = true →
  ∃ reasoning,
    calculate_club_score table club_slug responses
    = Ok (weight_sum table club_slug responses, reasoning) ∧
    (table !! club_slug = None →
       weight_sum table club_slug responses = 0 ∧ reasoning = []) ∧
    (∀ q a rules, table !! club_slug = Some rules →
       (rules !! q = None ∨
        ∃ answers, rules !! q = Some answers ∧ answers !! a = None) →
       table_weight table club_slug q a = 0) ∧
    (responses = [("enjoy", "coding"); ("domain", "ai"); ("impact", "tech");
                  ("past", "coding"); ("time", "high")] →
     table_weight table club_slug "enjoy" "coding" = 4 →
     table_weight table club_slug "domain" "ai" = 3 →
     table_weight table club_slug "impact" "tech" = 4 →
     table_weight table club_slug "past" "coding" = 3 →
     weight_sum table club_slug responses = 14).
Proof.
  intros Htexts.
  destruct (calculate_club_score_spec table club_slug responses Htexts)
    as (reasoning & Hscore & Hexp).
  exists reasoning. split; [exact Hscore|]. split; [|split].
  - intros Hnone. split; [by apply weight_sum_unknown_club|].
    rewrite explained_entries_unknown_club in Hexp by done.
    by apply Forall2_nil_inv_l in Hexp.
  - intros q a rules Hrules Hunknown.
    unfold table_weight, dict_get, rule_weight. rewrite Hrules. simpl.
    destruct Hunknown as [->|(answers & -> & ->)]; reflexivity.
  - intros -> H1 H2 H3 H4. unfold weight_sum.
    change (scored_entries _) with
      [("enjoy", "coding"); ("domain", "ai"); ("impact", "tech"); ("past", "coding")].
    simpl. unfold Zsum. simpl. rewrite H1, H2, H3, H4. reflexivity.
Qed.

Lemma calculate_club_score_total_witness :
  texts_cover CLUB_SCORING_RULES = true ∧
  ∃ reasoning,
    calculate_club_score CLUB_SCORING_RULES "acm"
      [("enjoy", "coding"); ("domain", "ai"); ("impact", "tech");
       ("past", "coding"); ("time", "high")]
    = Ok (14, reasoning).
Proof.
  assert (Htexts : texts_cover CLUB_SCORING_RULES = true)
    by (vm_compute; reflexivity).
  split; [exact Htexts|].
  destruct (calculate_club_score_total CLUB_SCORING_RULES "acm"
              [("enjoy", "coding"); ("domain", "ai"); ("impact", "tech");
               ("past", "coding"); ("time", "high")] Htexts)
    as (reasoning & Hscore & _ & _ & Hexample).
  exists reasoning. rewrite Hscore.
  rewrite Hexample; [reflexivity|reflexivity|..]; vm_compute; reflexivity.
Defined.

(** ** The [time] answer *)

Lemma score_step_time rules acc a1 a2 :
  score_step rules acc ("time", a1) = score_step rules acc ("time", a2).
Proof. destruct acc. reflexivity. Qed.

Lemma score_loop_differ_only_in_time rules r1 r2 :
  differ_only_in_time r1 r2 →
  ∀ acc, for_each (score_step rules) r1 acc = for_each (score_step rules) r2 acc.
Proof.
  induction 1 as [|[q1 a1] [q2 a2] r1 r2 [Hkey Hval] _ IH]; intros acc; [done|].
  simpl in Hkey, Hval. subst q2. rewrite !for_each_cons.
  assert (Hstep : score_step rules acc (q1, a1) = score_step rules acc (q1, a2)).
  { destruct (decide (q1 = "time")) as [->|Hne].
    - apply score_step_time.
    - by rewrite (Hval Hne). }
  rewrite Hstep. destruct (score_step rules acc (q1, a2)); simpl; [apply IH|done].
Qed.

(** C3. For every club identifier and every two response dictionaries that
    differ only in the answer to [time], [calculate_club_score] returns the
    same total and the same reasoning list for both. *)
Theorem time_answer_never_affects_score table club_slug r1 r2 :
  texts_cover table = true →
  differ_only_in_time r1 r2 →
  ∃ total reasoning,
    calculate_club_score table club_slug r1 = Ok (total, reasoning) ∧
    calculate_club_score table club_slug r2 = Ok (total, reasoning).
Proof.
  intros Htexts Hdiff.
  destruct (calculate_club_score_spec table club_slug r1 Htexts)
    as (reasoning & Hscore & _).
  exists (weight_sum table club_slug r1), reasoning. split; [exact Hscore|].
  rewrite <- Hscore. symmetry. unfold calculate_club_score.
  by apply score_loop_differ_only_in_time.
Qed.

Lemma time_answer_never_affects_score_witness :
  texts_cover CLUB_SCORING_RULES = true ∧
  differ_only_in_time
    [("enjoy", "coding"); ("time", "low"); ("domain", "ai")]
    [("enjoy", "coding"); ("time", "high"); ("domain", "ai")] ∧
  ∃ total reasoning,
    calculate_club_score CLUB_SCORING_RULES "acm"
      [("enjoy", "coding"); ("time", "low"); ("domain", "ai")]
    = Ok (total, reasoning) ∧
    calculate_club_score CLUB_SCORING_RULES "acm"
      [("enjoy", "coding"); ("time", "high"); ("domain", "ai")]
    = Ok (total, reasoning).
Proof.
  assert (Htexts : texts_cover CLUB_SCORING_RULES = true)
    by (vm_compute; reflexivity).
  assert (Hdiff : differ_only_in_time
            [("enjoy", "coding"); ("time", "low"); ("domain", "ai")]
            [("enjoy", "coding"); ("time", "high"); ("domain", "ai")]).
  { repeat constructor; simpl; intros H; by try destruct H. }
  split; [exact Htexts|]. split; [exact Hdiff|].
  exact (time_answer_never_affects_score CLUB_SCORING_RULES "acm" _ _ Htexts Hdiff).
Defined.

(** ** The reasoning list *)

Lemma sublist_omap {A B} (f : A → option B) (l1 l2 : list A) :
  l1 `sublist_of` l2 → omap f l1 `sublist_of` omap f l2.
Proof.
  induction 1 as [|x l1 l2 _ IH|x l1 l2 _ IH]; simpl.
  - constructor.
  - destruct (f x); [by constructor | exact IH].
  - destruct (f x); [by constructor | exact IH].
Qed.

Lemma explained_questions rules entries items :
  Forall2 (explains_rule rules) entries items →
  omap (λ q, QUESTION_TEXT !! q) (map fst entries) = map question items.
Proof.
  induction 1 as [|kv item entries items (Hq & _ & _) _ IH]; [done|].
  cbn [map omap list_omap]. rewrite Hq. cbn [map]. by rewrite <- IH.
Qed.

Lemma explained_contributions_positive rules entries items :
  Forall2 (explains_rule rules) entries items →
  Forall (λ kv, 0 < rule_weight rules kv.1 kv.2) entries →
  Forall (λ item, 0 < contribution item) items.
Proof.
  induction 1 as [|kv item entries items (_ & _ & Hc) _ IH]; intros Hpos;
    constructor.
  - apply Forall_cons in Hpos as [Hkv _]. rewrite Hc. exact Hkv.
  - apply IH. apply Forall_cons in Hpos as [_ Hrest]. exact Hrest.
Qed.

Lemma explained_entries_sublist table club_slug responses :
  explained_entries table club_slug responses `sublist_of` responses.
Proof.
  unfold explained_entries, scored_entries.
  etrans; apply sublist_filter.
Qed.

(** C4 (as amended). [calculate_club_score] returns a reasoning list that
    has exactly one item for each entry of the response dictionary, other
    than [time], whose weight is strictly positive: entries of zero or
    negative weight have no item, yet every weight is part of the total.
    The contribution of an item is the weight of the table for its question
    and answer.  The items are in the iteration order of the response
    dictionary; when the keys of the dictionary are in the order in which
    the questions are presented, as they are in every dictionary that
    [model_dump] builds, so are the items. *)
Theorem reasoning_lists_positive_contributions table club_slug responses :
  texts_cover table = true →
  ∃ total reasoning,
    calculate_club_score table club_slug responses = Ok (total, reasoning) ∧
    total = weight_sum table club_slug responses ∧
    Forall2 (explains table club_slug)
            (explained_entries table club_slug responses) reasoning ∧
    Forall (λ item, 0 < contribution item) reasoning ∧
    (map fst responses `sublist_of` canonical_questions →
     map question reasoning `sublist_of` canonical_texts).
Proof.
  intros Htexts.
  destruct (calculate_club_score_spec table club_slug responses Htexts)
    as (reasoning & Hscore & Hexp).
  exists (weight_sum table club_slug responses), reasoning.
  split; [exact Hscore|]. split; [reflexivity|]. split; [exact Hexp|]. split.
  - apply (explained_contributions_positive _ _ _ Hexp).
    unfold explained_entries. apply Forall_forall. intros kv Hin.
    apply list_elem_of_filter in Hin as [Hkv _]. exact Hkv.
  - intros Hcanon. rewrite <- (explained_questions _ _ _ Hexp).
    unfold canonical_texts. apply sublist_omap.
    etrans; [|exact Hcanon].
    apply (fmap_sublist fst). apply explained_entries_sublist.
Qed.

Lemma reasoning_lists_positive_contributions_witness :
  texts_cover CLUB_SCORING_RULES = true ∧
  ∃ total reasoning,
    calculate_club_score CLUB_SCORING_RULES "nss"
      (model_dump {| enjoy := "coding"; time := "high"; domain := "management";
                     impact := "social"; past := "none" |})
    = Ok (total, reasoning) ∧
    total = 11 ∧
    map contribution reasoning = [3; 5; 3] ∧
    map question reasoning `sublist_of` canonical_texts.
Proof.
  assert (Htexts : texts_cover CLUB_SCORING_RULES = true)
    by (vm_compute; reflexivity).
  split; [exact Htexts|].
  destruct (reasoning_lists_positive_contributions CLUB_SCORING_RULES "nss"
              (model_dump {| enjoy := "coding"; time := "high"; domain := "management";
                             impact := "social"; past := "none" |}) Htexts)
    as (total & reasoning & Hscore & Htotal & _ & _ & Horder).
  exists total, reasoning. split; [exact Hscore|].
  assert (Hrun : calculate_club_score CLUB_SCORING_RULES "nss"
            (model_dump {| enjoy := "coding"; time := "high"; domain := "management";
                           impact := "social"; past := "none" |})
          = Ok (11, [ {| question := "Which domain are you most drawn to?";
                         answer := "Management / Entrepreneurship"; contribution := 3 |};
                      {| question := "What kind of impact do you want to create?";
                         answer := "Social change"; contribution := 5 |};
                      {| question := "Past experience?";
                         answer := "None, first time!"; contribution := 3 |} ]))
    by (vm_compute; reflexivity).
  rewrite Hrun in Hscore. injection Hscore as <- <-.
  split; [reflexivity|]. split; [reflexivity|].
  apply Horder. reflexivity.
Defined.

(** The reasoning follows the iteration order of the response dictionary,
    also when that is not the order in which the questions are presented:
    the claim C4, as first stated, fails for a dictionary that lists [past]
    before [enjoy]. *)
Lemma reasoning_order_counterexample :
  ∃ total reasoning,
    calculate_club_score CLUB_SCORING_RULES "acm"
      [("past", "coding"); ("enjoy", "coding")] = Ok (total, reasoning) ∧
    map question reasoning = ["Past experience?"; "What do you enjoy most?"] ∧
    ¬ (map question reasoning `sublist_of` canonical_texts).
Proof.
  eexists _, _. split; [vm_compute; reflexivity|]. split; [reflexivity|].
  simpl. vm_compute canonical_texts. intros H.
  repeat match goal with
         | H : sublist (_ :: _) _ |- _ => inversion H; clear H; subst
         end.
Qed.

(** ** Sorting, slicing, enumerating *)

Section Sorting.
Context {A : Type} (key : A → Z) (reverse : bool).

Lemma precedes_ordered y x : key_precedes key reverse y x = true → ordered key reverse y x.
Proof. unfold key_precedes, ordered. destruct reverse; intros ?%Z.ltb_lt; lia. Qed.

Lemma not_precedes_ordered y x : key_precedes key reverse y x = false → ordered key reverse x y.
Proof. unfold key_precedes, ordered. destruct reverse; intros ?%Z.ltb_ge; lia. Qed.

Lemma ordered_trans x y z :
  ordered key reverse x y → ordered key reverse y z → ordered key reverse x z.
Proof. unfold ordered. destruct reverse; lia. Qed.

Lemma insert_by_perm x l : insert_by (key_precedes key reverse) x l ≡ₚ x :: l.
Proof.
  induction l as [|y l IH]; simpl; [done|].
  destruct (key_precedes key reverse y x); [|done].
  rewrite IH. apply Permutation_swap.
Qed.

Lemma stable_sort_perm l : stable_sort (key_precedes key reverse) l ≡ₚ l.
Proof.
  induction l as [|x l IH]; simpl; [done|].
  rewrite insert_by_perm. by rewrite IH.
Qed.

Lemma py_sorted_perm l : py_sorted key reverse l ≡ₚ l.
Proof. apply stable_sort_perm. Qed.

Lemma py_sorted_length l : length (py_sorted key reverse l) = length l.
Proof. by rewrite py_sorted_perm. Qed.

Lemma insert_by_sorted x l :
  StronglySorted (ordered key reverse) l →
  StronglySorted (ordered key reverse) (insert_by (key_precedes key reverse) x l).
Proof.
  induction 1 as [|y l Hsorted IH Hall]; simpl.
  - repeat constructor.
  - destruct (key_precedes key reverse y x) eqn:E.
    + constructor; [exact IH|].
      rewrite insert_by_perm. constructor; [by apply precedes_ordered | exact Hall].
    + apply not_precedes_ordered in E.
      constructor; [by constructor|].
      constructor; [exact E|].
      eapply Forall_impl; [exact Hall|].
      intros z Hz. by eapply ordered_trans.
Qed.

Lemma py_sorted_sorted l : StronglySorted (ordered key reverse) (py_sorted key reverse l).
Proof.
  unfold py_sorted, stable_sort.
  induction l as [|x l IH]; simpl; [constructor|].
  by apply insert_by_sorted.
Qed.

(** A list in which no element has to come strictly before an earlier one
    is left as it is. *)
Lemma py_sorted_already l :
  StronglySorted (λ x y, key_precedes key reverse y x = false) l → py_sorted key reverse l = l.
Proof.
  unfold py_sorted, stable_sort.
  induction 1 as [|x l Hsorted IH Hall]; simpl; [done|].
  rewrite IH. destruct l as [|y l]; simpl; [done|].
  apply Forall_cons in Hall as [-> _]. done.
Qed.

(** Stability: the elements of any one key keep their relative order.
    Together with sortedness this fixes the result of the sort, whatever
    algorithm computes it. *)
Lemma insert_by_stable k x l :
  filter (λ y, key y = k) (insert_by (key_precedes key reverse) x l)
  = filter (λ y, key y = k) (x :: l).
Proof.
  induction l as [|y l IH]; simpl; [done|].
  destruct (key_precedes key reverse y x) eqn:E; [|done].
  assert (Hne : key y ≠ key x).
  { unfold key_precedes in E. destruct reverse; apply Z.ltb_lt in E; lia. }
  rewrite (filter_cons _ y), IH, !(filter_cons _ x), !(filter_cons _ y).
  destruct (decide (key y = k)), (decide (key x = k)); congruence.
Qed.

Lemma py_sorted_stable k l :
  filter (λ y, key y = k) (py_sorted key reverse l) = filter (λ y, key y = k) l.
Proof.
  unfold py_sorted, stable_sort.
  induction l as [|x l IH]; simpl; [done|].
  rewrite insert_by_stable, !filter_cons, IH. reflexivity.
Qed.

End Sorting.

Lemma slice_to_take {A} (n : Z) (l : list A) :
  ∃ k, slice_to n l = take k l ∧ (0 ≤ n → k = Z.to_nat n).
Proof.
  unfold slice_to. destruct (Z.leb_spec 0 n).
  - by eexists.
  - eexists. split; [done|lia].
Qed.

Lemma slice_to_nil {A} (n : Z) : slice_to n (@nil A) = [].
Proof. unfold slice_to. destruct (0 <=? n); apply take_nil. Qed.

Lemma slice_to_length {A} (n : Z) (l : list A) :
  0 ≤ n → Z.of_nat (length (slice_to n l)) ≤ n.
Proof.
  intros Hn. unfold slice_to. destruct (Z.leb_spec 0 n); [|lia].
  rewrite length_take. lia.
Qed.

Lemma StronglySorted_take {A} (R : relation A) (k : nat) (l : list A) :
  StronglySorted R l → StronglySorted R (take k l).
Proof.
  intros H. rewrite <- (take_drop k l) in H.
  by apply StronglySorted_app_1_l in H.
Qed.

Lemma enumerate_length {A} (l : list A) : ∀ start, length (enumerate start l) = length l.
Proof. induction l as [|x l IH]; intros start; simpl; [done|]. by rewrite IH. Qed.

Lemma enumerate_snd {A} (l : list A) : ∀ start, map snd (enumerate start l) = l.
Proof. induction l as [|x l IH]; intros start; simpl; [done|]. by rewrite IH. Qed.

Lemma enumerate_lookup {A} (l : list A) : ∀ start (i : nat) p,
  enumerate start l !! i = Some p → p.1 = start + Z.of_nat i ∧ l !! i = Some p.2.
Proof.
  induction l as [|x l IH]; intros start i p; [done|].
  destruct i as [|i]; simpl.
  - intros [= <-]. simpl. split; [lia|done].
  - intros H. apply IH in H as [-> ->]. split; [lia|done].
Qed.

(** ** [get_club_recommendations] *)

Lemma score_of_spec table club_slug responses :
  texts_cover table = true →
  calculate_club_score table club_slug responses
  = Ok (score_of table club_slug responses).
Proof.
  intros Htexts. unfold score_of.
  destruct (calculate_club_score_spec table club_slug responses Htexts)
    as (reasoning & -> & _).
  reflexivity.
Qed.

Lemma candidate_clubs_cons table c l :
  candidate_clubs table (c :: l)
  = (if dict_in (Club.slug c) table then [c] else []) ++ candidate_clubs table l.
Proof.
  unfold candidate_clubs, dict_in. rewrite filter_cons.
  destruct (decide (is_Some (table !! Club.slug c))) as [H|H].
  - by rewrite bool_decide_eq_true_2.
  - by rewrite bool_decide_eq_false_2.
Qed.

Lemma score_clubs_loop table responses db_clubs :
  texts_cover table = true →
  ∀ acc, for_each (score_club_step table responses) db_clubs acc
         = Ok (acc ++ map (scored_club table responses) (candidate_clubs table db_clubs)).
Proof.
  intros Htexts. induction db_clubs as [|c l IH]; intros acc.
  - simpl. by rewrite app_nil_r.
  - rewrite for_each_cons, candidate_clubs_cons. unfold score_club_step at 1.
    destruct (dict_in (Club.slug c) table).
    + rewrite score_of_spec by done. simpl. rewrite IH, <- app_assoc. reflexivity.
    + simpl. apply IH.
Qed.

(** No club is scored when no active club has an entry in the table, so
    this case needs nothing of the table. *)
Lemma score_clubs_loop_no_candidates table responses db_clubs :
  candidate_clubs table db_clubs = [] →
  ∀ acc, for_each (score_club_step table responses) db_clubs acc = Ok acc.
Proof.
  induction db_clubs as [|c l IH]; intros Hnone acc; [done|].
  rewrite candidate_clubs_cons in Hnone. apply app_eq_nil in Hnone as [Hc Hl].
  rewrite for_each_cons. unfold score_club_step at 1.
  destruct (dict_in (Club.slug c) table); [done|]. simpl. by apply IH.
Qed.

Lemma get_club_recommendations_spec table db responses top_n :
  texts_cover table = true →
  get_club_recommendations table db responses top_n
  = Ok (map ranked
          (enumerate 1
             (slice_to top_n
                (py_sorted sc_score true
                   (map (scored_club table responses)
                      (candidate_clubs table (active_clubs db))))))).
Proof.
  intros Htexts. unfold get_club_recommendations.
  destruct (active_clubs db) as [|c l] eqn:Eactive.
  - unfold candidate_clubs. rewrite filter_nil. simpl. by rewrite slice_to_nil.
  - rewrite score_clubs_loop by done. cbn [bind app].
    destruct (map (scored_club table responses) (candidate_clubs table (c :: l)));
      [|reflexivity].
    simpl. by rewrite slice_to_nil.
Qed.

Lemma get_club_recommendations_no_candidates table db responses top_n :
  candidate_clubs table (active_clubs db) = [] →
  get_club_recommendations table db responses top_n = Ok [].
Proof.
  intros Hnone. unfold get_club_recommendations.
  destruct (active_clubs db) as [|c l] eqn:Eactive; [reflexivity|].
  by rewrite score_clubs_loop_no_candidates.
Qed.

Lemma ranked_lookup (l : list ScoredClub) (i : nat) rec :
  map ranked (enumerate 1 l) !! i = Some rec →
  rank rec = Z.of_nat i + 1 ∧
  ∃ sc, l !! i = Some sc ∧ score rec = sc_score sc ∧ club rec = sc_club sc
        ∧ reasoning rec = sc_reasoning sc.
Proof.
  change (map ranked (enumerate 1 l)) with (ranked <$> enumerate 1 l).
  rewrite list_lookup_fmap. destruct (enumerate 1 l !! i) as [p|] eqn:E; [|done].
  intros [= <-]. apply enumerate_lookup in E as [Hrank Hsc].
  split; [simpl; lia|]. exists p.2. done.
Qed.

Lemma ranked_scores (l : list ScoredClub) :
  map score (map ranked (enumerate 1 l)) = map sc_score l.
Proof.
  rewrite <- (enumerate_snd l 1) at 2. rewrite !map_map. reflexivity.
Qed.

Lemma StronglySorted_map {A B} (f : A → B) (R : relation B) (l : list A) :
  StronglySorted (λ x y, R (f x) (f y)) l → StronglySorted R (map f l).
Proof.
  induction 1 as [|x l _ IH Hall]; simpl; constructor; [exact IH|].
  apply Forall_forall. intros y [z [<- Hz]]%list_elem_of_In%in_map_iff.
  rewrite Forall_forall in Hall. apply Hall. by apply list_elem_of_In.
Qed.

(** C2. For every response dictionary, every club directory and every cap
    [top_n] (a number of entries, [0 ≤ top_n]), [get_club_recommendations]
    returns at most [top_n] entries; the rank of the i-th entry (counting
    from 1) is exactly i, so that the ranks are 1..len(result) without gaps,
    repeats or shared ranks, and the scores never increase along the
    ranks. *)
Theorem recommendations_ranked_and_sorted table db responses top_n :
  texts_cover table = true →
  ∃ recs,
    get_club_recommendations table db responses top_n = Ok recs ∧
    (0 ≤ top_n → Z.of_nat (length recs) ≤ top_n) ∧
    (∀ (i : nat) rec, recs !! i = Some rec → rank rec = Z.of_nat i + 1) ∧
    map rank recs = map (λ i, Z.of_nat i + 1) (seq 0 (length recs)) ∧
    StronglySorted (λ s1 s2, s2 ≤ s1) (map score recs).
Proof.
  intros Htexts. eexists. split; [by apply get_club_recommendations_spec|].
  set (sorted := py_sorted sc_score true _).
  assert (Hrank : ∀ (i : nat) rec,
            map ranked (enumerate 1 (slice_to top_n sorted)) !! i = Some rec →
            rank rec = Z.of_nat i + 1).
  { intros i rec H. by apply ranked_lookup in H as [? _]. }
  split; [|split; [exact Hrank|split]].
  - intros Hn. rewrite length_map, enumerate_length. by apply slice_to_length.
  - revert Hrank. generalize (map ranked (enumerate 1 (slice_to top_n sorted))).
    intros recs Hrank. apply list_eq. intros i.
    change (map rank recs) with (rank <$> recs).
    change (map ?f (seq ?a ?b)) with (f <$> seq a b).
    rewrite !list_lookup_fmap.
    destruct (recs !! i) as [rec|] eqn:E.
    + rewrite lookup_seq_lt by (by eapply lookup_lt_Some). simpl.
      f_equal. by apply Hrank.
    + rewrite lookup_seq_ge by (by apply lookup_ge_None). reflexivity.
  - rewrite ranked_scores. apply StronglySorted_map.
    destruct (slice_to_take top_n sorted) as (k & -> & _).
    apply StronglySorted_take. apply (py_sorted_sorted sc_score true).
Qed.

Lemma recommendations_ranked_and_sorted_witness :
  texts_cover CLUB_SCORING_RULES = true ∧
  ∃ recs,
    get_club_recommendations CLUB_SCORING_RULES sample_db
      (model_dump sample_responses) 2 = Ok recs ∧
    map (λ rec, (cs_slug (club rec), score rec, rank rec)) recs
    = [("codeio", 17, 1); ("acm", 14, 2)] ∧
    StronglySorted (λ s1 s2, s2 ≤ s1) (map score recs).
Proof.
  assert (Htexts : texts_cover CLUB_SCORING_RULES = true)
    by (vm_compute; reflexivity).
  split; [exact Htexts|].
  destruct (recommendations_ranked_and_sorted CLUB_SCORING_RULES sample_db
              (model_dump sample_responses) 2 Htexts)
    as (recs & Hrecs & _ & _ & _ & Hsorted).
  exists recs. split; [exact Hrecs|]. split; [|exact Hsorted].
  assert (Hrun : ∃ recs',
            get_club_recommendations CLUB_SCORING_RULES sample_db
              (model_dump sample_responses) 2 = Ok recs' ∧
            map (λ rec, (cs_slug (club rec), score rec, rank rec)) recs'
            = [("codeio", 17, 1); ("acm", 14, 2)]).
  { eexists. split; vm_compute; reflexivity. }
  destruct Hrun as (recs' & Hrecs' & Hshape).
  rewrite Hrecs' in Hrecs. injection Hrecs as <-. exact Hshape.
Defined.

Lemma slice_to_elem_of {A} (n : Z) (l : list A) x : x ∈ slice_to n l → x ∈ l.
Proof.
  destruct (slice_to_take n l) as (k & -> & _).
  intros H. rewrite <- (take_drop k l). apply elem_of_app. by left.
Qed.

Lemma recommendation_origin table db responses top_n rec :
  rec ∈ map ranked
          (enumerate 1
             (slice_to top_n
                (py_sorted sc_score true
                   (map (scored_club table responses)
                      (candidate_clubs table (active_clubs db)))))) →
  ∃ c, c ∈ active_clubs db ∧ is_Some (table !! Club.slug c) ∧
       club rec = club_dict c.
Proof.
  intros [p [<- Hp]]%list_elem_of_In%in_map_iff.
  assert (Hsc : p.2 ∈ slice_to top_n
                  (py_sorted sc_score true
                     (map (scored_club table responses)
                        (candidate_clubs table (active_clubs db))))).
  { rewrite <- (enumerate_snd (slice_to _ _) 1).
    apply list_elem_of_In, in_map. exact Hp. }
  apply slice_to_elem_of in Hsc. rewrite py_sorted_perm in Hsc.
  apply list_elem_of_In, in_map_iff in Hsc as [c [Hc Hin]].
  apply list_elem_of_In, list_elem_of_filter in Hin as [Htable Hactive].
  exists c. split; [exact Hactive|]. split; [exact Htable|].
  simpl. by rewrite <- Hc.
Qed.

(** C6. For every response dictionary and every club directory, every
    entry that [get_club_recommendations] returns is an active club of the
    directory whose slug has an entry in the scoring table; a club whose slug
    is absent from the table is in no entry, whatever the responses and
    whether or not it is in the directory. *)
Theorem clubs_without_rules_never_recommended table db responses top_n :
  texts_cover table = true →
  ∃ recs,
    get_club_recommendations table db responses top_n = Ok recs ∧
    (∀ rec, rec ∈ recs →
       ∃ c, c ∈ active_clubs db ∧ is_Some (table !! Club.slug c) ∧
            club rec = club_dict c) ∧
    (∀ slug, table !! slug = None → slug ∉ map (λ rec, cs_slug (club rec)) recs).
Proof.
  intros Htexts. eexists. split; [by apply get_club_recommendations_spec|].
  split.
  - intros rec. apply recommendation_origin.
  - intros slug Hnone [rec [<- Hin]]%list_elem_of_In%in_map_iff.
    apply list_elem_of_In, recommendation_origin in Hin as (c & _ & [v Hv] & Hclub).
    rewrite Hclub in Hnone. simpl in Hnone. congruence.
Qed.

Lemma clubs_without_rules_never_recommended_witness :
  texts_cover CLUB_SCORING_RULES = true ∧
  CLUB_SCORING_RULES !! "chess" = None ∧
  ∃ recs,
    get_club_recommendations CLUB_SCORING_RULES sample_db
      (model_dump sample_responses) 10 = Ok recs ∧
    "chess" ∉ map (λ rec, cs_slug (club rec)) recs.
Proof.
  assert (Htexts : texts_cover CLUB_SCORING_RULES = true)
    by (vm_compute; reflexivity).
  assert (Hchess : CLUB_SCORING_RULES !! "chess" = None)
    by (vm_compute; reflexivity).
  split; [exact Htexts|]. split; [exact Hchess|].
  destruct (clubs_without_rules_never_recommended CLUB_SCORING_RULES sample_db
              (model_dump sample_responses) 10 Htexts)
    as (recs & Hrecs & _ & Habsent).
  exists recs. split; [exact Hrecs|]. by apply Habsent.
Defined.

(** ** Submitting an assessment *)

Lemma no_candidates table db_clubs :
  (db_clubs = [] ∨ ∀ c, c ∈ db_clubs → table !! Club.slug c = None) →
  candidate_clubs table db_clubs = [].
Proof.
  intros [->|Hnone]; [done|].
  unfold candidate_clubs. induction db_clubs as [|c l IH]; [done|].
  rewrite filter_cons, decide_False.
  - apply IH. intros c' Hc'. apply Hnone. by right.
  - intros [v Hv]. rewrite (Hnone c) in Hv; [done|by left].
Qed.

Lemma insert_assessment_fresh db a :
  Assessment.id a ∉ map Assessment.id (assessments db) →
  insert_assessment db a
  = Ok {| clubs := clubs db;
          assessments := assessments db ++ [a];
          recommendations := recommendations db |}.
Proof. intros H. unfold insert_assessment. by rewrite bool_decide_eq_false_2. Qed.

(** C7. When the active-club roster is empty, or no active club has an
    entry in the scoring table, [get_club_recommendations] returns the empty
    list; [create_assessment] and the endpoint [submit_assessment] then
    still store the assessment, add no recommendation row and answer with an
    empty recommendation list instead of failing.  The submission has a
    fresh id and is without owner or owned by the authenticated user. *)
Theorem no_candidates_is_not_an_error table db responses top_n
    assessment_data current_user new_id now :
  (active_clubs db = [] ∨
   ∀ c, c ∈ active_clubs db → table !! Club.slug c = None) →
  new_id ∉ map Assessment.id (assessments db) →
  (current_user = None → ac_user_id assessment_data = None) →
  let submitted :=
    {| ac_responses := ac_responses assessment_data;
       ac_user_id := owner_of assessment_data current_user |} in
  let stored :=
    {| clubs := clubs db;
       assessments :=
         assessments db ++ [new_assessment assessment_data current_user new_id now];
       recommendations := recommendations db |} in
  get_club_recommendations table db responses top_n = Ok [] ∧
  create_assessment table db submitted new_id now
  = (stored, Ok (new_assessment assessment_data current_user new_id now)) ∧
  submit_assessment table db assessment_data current_user new_id now
  = (stored, Response {| ar_assessment_id := UUID_str new_id;
                         ar_recommendations := [];
                         ar_created_at := now |}) ∧
  assessment_recommendations stored
    (new_assessment assessment_data current_user new_id now)
  = assessment_recommendations db
      (new_assessment assessment_data current_user new_id now).
Proof.
  intros Hnone%no_candidates Hfresh _ submitted stored.
  assert (Hcreate : ∀ data,
    create_assessment table db data new_id now
    = ({| clubs := clubs db;
          assessments := assessments db ++ [new_assessment data None new_id now];
          recommendations := recommendations db |},
       Ok (new_assessment data None new_id now))).
  { intros data. unfold create_assessment.
    rewrite insert_assessment_fresh by done.
    rewrite get_club_recommendations_no_candidates by exact Hnone.
    unfold insert_recommendations. simpl. by rewrite app_nil_r. }
  split; [by apply get_club_recommendations_no_candidates|].
  split; [apply Hcreate|]. split; [|reflexivity].
  unfold submit_assessment. rewrite Hcreate.
  rewrite get_club_recommendations_no_candidates by exact Hnone.
  unfold stored, new_assessment, owner_of. by destruct current_user.
Qed.

Lemma no_candidates_is_not_an_error_witness :
  (active_clubs uncovered_db = [] ∨
   ∀ c, c ∈ active_clubs uncovered_db → CLUB_SCORING_RULES !! Club.slug c = None) ∧
  ((7 : UUID) ∉ map Assessment.id (assessments uncovered_db)) ∧
  ((None : option UUID) = None → ac_user_id sample_submission = None) ∧
  get_club_recommendations CLUB_SCORING_RULES uncovered_db
    (model_dump sample_responses) 10 = Ok [] ∧
  submit_assessment CLUB_SCORING_RULES uncovered_db sample_submission None 7 1000
  = ({| clubs := clubs uncovered_db;
        assessments := [new_assessment sample_submission None 7 1000];
        recommendations := [] |},
     Response {| ar_assessment_id := "00000000-0000-0000-0000-000000000007";
                 ar_recommendations := [];
                 ar_created_at := 1000 |}).
Proof.
  assert (Hnone : active_clubs uncovered_db = [] ∨
            ∀ c, c ∈ active_clubs uncovered_db →
                 CLUB_SCORING_RULES !! Club.slug c = None).
  { right. intros c Hc. vm_compute in Hc.
    apply list_elem_of_singleton in Hc as ->. vm_compute. reflexivity. }
  assert (Hfresh : (7 : UUID) ∉ map Assessment.id (assessments uncovered_db)).
  { simpl. apply not_elem_of_nil. }
  assert (Howner : (None : option UUID) = None → ac_user_id sample_submission = None)
    by reflexivity.
  split; [exact Hnone|]. split; [exact Hfresh|]. split; [exact Howner|].
  destruct (no_candidates_is_not_an_error CLUB_SCORING_RULES uncovered_db
              (model_dump sample_responses) 10 sample_submission None 7 1000
              Hnone Hfresh Howner) as (Hrec & _ & Hsubmit & _).
  split; [exact Hrec|]. exact Hsubmit.
Defined.

(** ** Reading an assessment back *)

Section Reading.
Variable UUID_of_str : string → option UUID.

Lemma get_assessment_by_id_None db assessment_id :
  (∀ u, UUID_of_str assessment_id = Some u →
        u ∉ map Assessment.id (assessments db)) →
  get_assessment_by_id UUID_of_str db assessment_id = None.
Proof.
  intros Hunknown. unfold get_assessment_by_id.
  destruct (UUID_of_str assessment_id) as [u|]; [|done].
  specialize (Hunknown u eq_refl).
  destruct (filter _ _) as [|a l] eqn:E; [done|]. exfalso.
  assert (Ha : a ∈ filter (λ a, Assessment.id a = u) (assessments db))
    by (rewrite E; by left).
  apply list_elem_of_filter in Ha as [<- Ha]. apply Hunknown.
  apply list_elem_of_In, in_map, list_elem_of_In, Ha.
Qed.

Lemma get_assessment_by_id_Some db assessment_id a :
  get_assessment_by_id UUID_of_str db assessment_id = Some a →
  a ∈ assessments db ∧ UUID_of_str assessment_id = Some (Assessment.id a).
Proof.
  unfold get_assessment_by_id.
  destruct (UUID_of_str assessment_id) as [u|]; [|done].
  destruct (filter _ _) as [|a' l] eqn:E; [done|]. intros [= ->].
  assert (Ha : a ∈ filter (λ a, Assessment.id a = u) (assessments db))
    by (rewrite E; by left).
  apply list_elem_of_filter in Ha as [<- Ha]. done.
Qed.

(** C10. For every string that [uuid.UUID] rejects, [get_assessment_by_id]
    returns [None] instead of raising, and the endpoint answers 404 "not
    found". *)
Theorem malformed_id_is_not_found db assessment_id :
  UUID_of_str assessment_id = None →
  get_assessment_by_id UUID_of_str db assessment_id = None ∧
  get_assessment UUID_of_str db assessment_id
  = HTTPException HTTP_404_NOT_FOUND "Assessment not found".
Proof.
  intros Hbad. unfold get_assessment, get_assessment_by_id. by rewrite Hbad.
Qed.

(** C8. For every assessment id that does not resolve to a stored
    assessment, [get_assessment] signals 404 "not found"; for an id that
    resolves to an assessment without recommendations it answers with that
    assessment and an empty list, which is a different outcome. *)
Theorem unknown_id_is_not_found db assessment_id :
  (∀ u, UUID_of_str assessment_id = Some u →
        u ∉ map Assessment.id (assessments db)) →
  get_assessment UUID_of_str db assessment_id
  = HTTPException HTTP_404_NOT_FOUND "Assessment not found" ∧
  ∀ db' id' a,
    get_assessment_by_id UUID_of_str db' id' = Some a →
    assessment_recommendations db' a = [] →
    get_assessment UUID_of_str db' id'
    = Response {| ar_assessment_id := UUID_str (Assessment.id a);
                  ar_recommendations := [];
                  ar_created_at := Assessment.created_at a |} ∧
    get_assessment UUID_of_str db' id' ≠ get_assessment UUID_of_str db assessment_id.
Proof.
  intros Hunknown.
  assert (H404 : get_assessment UUID_of_str db assessment_id
                 = HTTPException HTTP_404_NOT_FOUND "Assessment not found").
  { unfold get_assessment. by rewrite get_assessment_by_id_None. }
  split; [exact H404|].
  intros db' id' a Hfound Hempty.
  assert (Hok : get_assessment UUID_of_str db' id'
                = Response {| ar_assessment_id := UUID_str (Assessment.id a);
                              ar_recommendations := [];
                              ar_created_at := Assessment.created_at a |}).
  { unfold get_assessment. rewrite Hfound, Hempty. reflexivity. }
  split; [exact Hok|]. rewrite Hok, H404. discriminate.
Qed.

(** C9. For every stored assessment, [get_assessment] answers with one
    recommendation per stored row, none dropped and none added, in ascending
    order of rank, each with the score, rank and reasoning of its row.  For a
    row whose club slug is no longer in the directory the club summary is a
    placeholder: the slug with hyphens turned into spaces and title-cased as
    the name, the tagline "Club information unavailable" and an empty
    logo. *)
Theorem stored_assessment_is_reconstructed db assessment_id a :
  get_assessment_by_id UUID_of_str db assessment_id = Some a →
  ∃ rows recs,
    get_assessment UUID_of_str db assessment_id
    = Response {| ar_assessment_id := UUID_str (Assessment.id a);
                  ar_recommendations := recs;
                  ar_created_at := Assessment.created_at a |} ∧
    rows ≡ₚ assessment_recommendations db a ∧
    StronglySorted Z.le (map Recommendation.rank rows) ∧
    map rank recs = map Recommendation.rank rows ∧
    Forall2 (λ row rec,
               score rec = Recommendation.score row ∧
               rank rec = Recommendation.rank row ∧
               reasoning rec = default [] (Recommendation.reasoning row) ∧
               (get_club_by_slug db (Recommendation.club_id row) = None →
                club rec
                = {| cs_id := Recommendation.club_id row;
                     cs_name := str_title (str_replace_char "-" " "
                                             (Recommendation.club_id row));
                     cs_slug := Recommendation.club_id row;
                     cs_tagline := "Club information unavailable";
                     cs_logo_url := "" |}))
            rows recs.
Proof.
  intros Hfound.
  exists (py_sorted Recommendation.rank false (assessment_recommendations db a)).
  eexists. split; [|split; [|split; [|split]]].
  - unfold get_assessment. rewrite Hfound. reflexivity.
  - apply py_sorted_perm.
  - apply StronglySorted_map.
    apply (py_sorted_sorted Recommendation.rank false).
  - rewrite map_map. reflexivity.
  - generalize (py_sorted Recommendation.rank false (assessment_recommendations db a)).
    intros rows. induction rows as [|row rows IH]; simpl; constructor; [|exact IH].
    unfold reconstruct_recommendation. simpl.
    split; [done|]. split; [done|]. split; [by destruct (Recommendation.reasoning row)|].
    intros ->. reflexivity.
Qed.

End Reading.

Lemma malformed_id_is_not_found_witness :
  UUID_of_hex "not-a-uuid" = None ∧
  get_assessment_by_id UUID_of_hex archived_db "not-a-uuid" = None ∧
  get_assessment UUID_of_hex archived_db "not-a-uuid"
  = HTTPException HTTP_404_NOT_FOUND "Assessment not found".
Proof.
  split; [reflexivity|].
  apply (malformed_id_is_not_found UUID_of_hex archived_db "not-a-uuid").
  reflexivity.
Defined.

Lemma unknown_id_is_not_found_witness :
  (∀ u, UUID_of_hex "00000000-0000-0000-0000-000000000008" = Some u →
        u ∉ map Assessment.id (assessments archived_db)) ∧
  get_assessment UUID_of_hex archived_db "00000000-0000-0000-0000-000000000008"
  = HTTPException HTTP_404_NOT_FOUND "Assessment not found" ∧
  get_assessment UUID_of_hex empty_result_db "00000000-0000-0000-0000-000000000007"
  = Response {| ar_assessment_id := "00000000-0000-0000-0000-000000000007";
                ar_recommendations := [];
                ar_created_at := 1000 |}.
Proof.
  assert (Hunknown :
            ∀ u, UUID_of_hex "00000000-0000-0000-0000-000000000008" = Some u →
                 u ∉ map Assessment.id (assessments archived_db)).
  { intros u Hu. vm_compute in Hu. injection Hu as <-.
    simpl. intros Hin. apply list_elem_of_singleton in Hin. discriminate. }
  split; [exact Hunknown|].
  destruct (unknown_id_is_not_found UUID_of_hex archived_db
              "00000000-0000-0000-0000-000000000008" Hunknown) as [H404 Hempty].
  split; [exact H404|].
  destruct (Hempty empty_result_db "00000000-0000-0000-0000-000000000007"
              archived_assessment) as [Hok _]; [reflexivity|reflexivity|].
  exact Hok.
Defined.

Lemma stored_assessment_is_reconstructed_witness :
  get_assessment_by_id UUID_of_hex archived_db "00000000-0000-0000-0000-000000000007"
  = Some archived_assessment ∧
  ∃ recs,
    get_assessment UUID_of_hex archived_db "00000000-0000-0000-0000-000000000007"
    = Response {| ar_assessment_id := "00000000-0000-0000-0000-000000000007";
                  ar_recommendations := recs;
                  ar_created_at := 1000 |} ∧
    map (λ rec, (rank rec, score rec, cs_name (club rec), cs_tagline (club rec),
                 cs_logo_url (club rec))) recs
    = [(1, 14, "ACM", "", "");
       (2, 9, "Old Robotics Club", "Club information unavailable", "")].
Proof.
  assert (Hfound : get_assessment_by_id UUID_of_hex archived_db
                     "00000000-0000-0000-0000-000000000007"
                   = Some archived_assessment) by reflexivity.
  split; [exact Hfound|].
  destruct (stored_assessment_is_reconstructed UUID_of_hex archived_db
              "00000000-0000-0000-0000-000000000007" archived_assessment Hfound)
    as (rows & recs & Hget & _).
  exists recs. split; [exact Hget|].
  assert (Hrun : get_assessment UUID_of_hex archived_db
                   "00000000-0000-0000-0000-000000000007"
                 = Response
                     {| ar_assessment_id := "00000000-0000-0000-0000-000000000007";
                        ar_recommendations :=
                          map (reconstruct_recommendation archived_db)
                            (py_sorted Recommendation.rank false
                               (recommendations archived_db));
                        ar_created_at := 1000 |}) by reflexivity.
  rewrite Hrun in Hget. injection Hget as <-. reflexivity.
Defined.

(** ** Round trip *)

Lemma filter_assessments_fresh (new_id : UUID) (l : list Assessment.t) :
  new_id ∉ map Assessment.id l →
  filter (λ a, Assessment.id a = new_id) l = [].
Proof.
  induction l as [|a l IH]; intros Hfresh; [done|].
  simpl in Hfresh. apply not_elem_of_cons in Hfresh as [Hne Hfresh].
  rewrite filter_cons, decide_False by done. by apply IH.
Qed.

Lemma filter_rows_other (new_id : UUID) (rows : list Recommendation.t) :
  (∀ r, r ∈ rows → Recommendation.assessment_id r ≠ new_id) →
  filter (λ r, Recommendation.assessment_id r = new_id) rows = [].
Proof.
  induction rows as [|r rows IH]; intros Hother; [done|].
  rewrite filter_cons, decide_False by (apply Hother; by left).
  apply IH. intros r' Hr'. apply Hother. by right.
Qed.

Lemma filter_rows_own (new_id : UUID) (recs : list ClubRecommendation) :
  filter (λ r, Recommendation.assessment_id r = new_id)
         (map (recommendation_row new_id) recs)
  = map (recommendation_row new_id) recs.
Proof.
  induction recs as [|rec recs IH]; [done|].
  simpl. rewrite filter_cons, decide_True by done. by rewrite IH.
Qed.

Lemma enumerate_ranks_ascend {A} (l : list A) : ∀ start,
  Forall (λ p, start ≤ p.1) (enumerate start l) ∧
  StronglySorted (λ p q, p.1 ≤ q.1) (enumerate start l).
Proof.
  induction l as [|x l IH]; intros start; simpl.
  - split; constructor.
  - destruct (IH (start + 1)) as [Hall Hsorted]. split.
    + constructor; [simpl; lia|].
      eapply Forall_impl; [exact Hall|]. simpl. intros; lia.
    + constructor; [exact Hsorted|].
      eapply Forall_impl; [exact Hall|]. simpl. intros; lia.
Qed.

Lemma StronglySorted_weaken {A} (R1 R2 : relation A) (l : list A) :
  (∀ x y, R1 x y → R2 x y) → StronglySorted R1 l → StronglySorted R2 l.
Proof.
  intros Himpl. induction 1 as [|x l _ IH Hall]; constructor; [exact IH|].
  eapply Forall_impl; [exact Hall|]. apply Himpl.
Qed.

(** Rows written in rank order are read back in the order they were
    written. *)
Lemma rows_already_sorted (new_id : UUID) (l : list ScoredClub) :
  py_sorted Recommendation.rank false
    (map (recommendation_row new_id) (map ranked (enumerate 1 l)))
  = map (recommendation_row new_id) (map ranked (enumerate 1 l)).
Proof.
  apply py_sorted_already. rewrite map_map.
  apply (StronglySorted_map (λ p, recommendation_row new_id (ranked p))
           (λ x y, key_precedes Recommendation.rank false y x = false)).
  destruct (enumerate_ranks_ascend l 1) as [_ Hsorted].
  eapply StronglySorted_weaken; [|exact Hsorted].
  intros p q Hpq. unfold key_precedes. simpl. apply Z.ltb_ge. exact Hpq.
Qed.

Lemma reconstructed_stored_part db (new_id : UUID) (recs : list ClubRecommendation) :
  map stored_part
      (map (reconstruct_recommendation db) (map (recommendation_row new_id) recs))
  = map stored_part recs.
Proof. rewrite !map_map. apply map_ext. by intros []. Qed.

(** C5. For every response set and every state of the club directory,
    [submit_assessment] with a fresh id, for a submission without owner or
    owned by the authenticated user, succeeds, and [get_assessment] on the
    assessment id it returns, in any later state with the same stored
    assessments and recommendation rows (the directory may have changed),
    answers with a recommendation list that has the same scores, ranks and
    reasoning, in the same order. *)
Theorem submit_then_reconstruct UUID_of_str table db assessment_data current_user
    new_id now :
  texts_cover table = true →
  foreign_keys_hold db →
  new_id ∉ map Assessment.id (assessments db) →
  UUID_of_str (UUID_str new_id) = Some new_id →
  (current_user = None → ac_user_id assessment_data = None) →
  ∃ db' submitted,
    submit_assessment table db assessment_data current_user new_id now
    = (db', Response submitted) ∧
    ∀ db_later,
      assessments db_later = assessments db' →
      recommendations db_later = recommendations db' →
      ∃ reconstructed,
        get_assessment UUID_of_str db_later (ar_assessment_id submitted)
        = Response reconstructed ∧
        ar_assessment_id reconstructed = ar_assessment_id submitted ∧
        ar_created_at reconstructed = ar_created_at submitted ∧
        map stored_part (ar_recommendations reconstructed)
        = map stored_part (ar_recommendations submitted).
Proof.
  intros Htexts Hfk Hfresh Hparse _.
  set (data := {| ac_responses := ac_responses assessment_data;
                  ac_user_id := owner_of assessment_data current_user |}).
  set (a := new_assessment assessment_data current_user new_id now).
  set (scored := py_sorted sc_score true
                   (map (scored_club table (model_dump (ac_responses assessment_data)))
                      (candidate_clubs table (active_clubs db)))).
  set (recs := map ranked (enumerate 1 (slice_to 10 scored))).
  set (db' := {| clubs := clubs db;
                 assessments := assessments db ++ [a];
                 recommendations :=
                   recommendations db ++ map (recommendation_row new_id) recs |}).
  assert (Hsubmit :
    submit_assessment table db assessment_data current_user new_id now
    = (db', Response {| ar_assessment_id := UUID_str new_id;
                        ar_recommendations := recs;
                        ar_created_at := now |})).
  { unfold submit_assessment, create_assessment.
    replace (match current_user with
             | Some uid => {| ac_responses := ac_responses assessment_data;
                              ac_user_id := Some (UUID_str uid) |}
             | None => assessment_data
             end) with data
      by (unfold data, owner_of; destruct current_user, assessment_data; reflexivity).
    rewrite insert_assessment_fresh by exact Hfresh.
    rewrite get_club_recommendations_spec by exact Htexts.
    rewrite get_club_recommendations_spec by exact Htexts.
    reflexivity. }
  exists db'. eexists. split; [exact Hsubmit|].
  intros db_later Hassessments Hrows. simpl ar_assessment_id.
  assert (Hfound : get_assessment_by_id UUID_of_str db_later (UUID_str new_id) = Some a).
  { unfold get_assessment_by_id. rewrite Hparse, Hassessments. simpl.
    rewrite filter_app, filter_assessments_fresh by exact Hfresh.
    rewrite filter_cons, decide_True by reflexivity. reflexivity. }
  assert (Hread : assessment_recommendations db_later a
                  = map (recommendation_row new_id) recs).
  { unfold assessment_recommendations. rewrite Hrows. simpl.
    rewrite filter_app, filter_rows_own, filter_rows_other; [reflexivity|].
    intros r Hr Heq. apply Hfresh. rewrite <- Heq. by apply Hfk. }
  eexists. split.
  - unfold get_assessment. rewrite Hfound, Hread. unfold recs.
    rewrite rows_already_sorted. reflexivity.
  - simpl. split; [reflexivity|]. split; [reflexivity|].
    apply reconstructed_stored_part.
Qed.

Lemma submit_then_reconstruct_witness :
  texts_cover CLUB_SCORING_RULES = true ∧
  foreign_keys_hold sample_db ∧
  ((7 : UUID) ∉ map Assessment.id (assessments sample_db)) ∧
  UUID_of_hex (UUID_str 7) = Some 7 ∧
  ((None : option UUID) = None → ac_user_id sample_submission = None) ∧
  ∃ db' submitted reconstructed,
    submit_assessment CLUB_SCORING_RULES sample_db sample_submission None 7 1000
    = (db', Response submitted) ∧
    get_assessment UUID_of_hex db' (ar_assessment_id submitted)
    = Response reconstructed ∧
    map stored_part (ar_recommendations reconstructed)
    = map stored_part (ar_recommendations submitted).
Proof.
  assert (Htexts : texts_cover CLUB_SCORING_RULES = true)
    by (vm_compute; reflexivity).
  assert (Hfk : foreign_keys_hold sample_db).
  { intros r Hr. change (r ∈ @nil Recommendation.t) in Hr.
    apply elem_of_nil in Hr. destruct Hr. }
  assert (Hfresh : (7 : UUID) ∉ map Assessment.id (assessments sample_db))
    by apply not_elem_of_nil.
  assert (Hparse : UUID_of_hex (UUID_str 7) = Some 7)
    by (vm_compute; reflexivity).
  assert (Howner : (None : option UUID) = None → ac_user_id sample_submission = None)
    by reflexivity.
  split; [exact Htexts|]. split; [exact Hfk|]. split; [exact Hfresh|].
  split; [exact Hparse|]. split; [exact Howner|].
  destruct (submit_then_reconstruct UUID_of_hex CLUB_SCORING_RULES sample_db
              sample_submission None 7 1000 Htexts Hfk Hfresh Hparse Howner)
    as (db' & submitted & Hsubmit & Hlater).
  destruct (Hlater db' eq_refl eq_refl) as (reconstructed & Hget & _ & _ & Hsame).
  exists db', submitted, reconstructed.
  split; [exact Hsubmit|]. split; [exact Hget|exact Hsame].
Defined.

(** * Further properties *)

(** ** Scores *)

Lemma explains_rule_reason_item rules kv item :
  explains_rule rules kv item → item = reason_item rules kv.
Proof.
  destruct item as [q a c]. unfold explains_rule, reason_item. simpl.
  intros (Hq & (texts & Htexts & Ha) & Hc).
  rewrite Hq, Htexts. simpl. by rewrite Ha, Hc.
Qed.

Lemma explained_reason_items rules entries items :
  Forall2 (explains_rule rules) entries items →
  items = map (reason_item rules) entries.
Proof.
  induction 1 as [|kv item entries items Hexp _ IH]; [done|].
  simpl. by rewrite (explains_rule_reason_item _ _ _ Hexp), IH.
Qed.

(** A closed form of the result. *)
Lemma calculate_club_score_closed table club_slug responses :
  texts_cover table = true →
  calculate_club_score table club_slug responses
  = Ok (weight_sum table club_slug responses,
        map (reason_item (dict_get table club_slug ∅))
            (explained_entries table club_slug responses)).
Proof.
  intros Htexts.
  destruct (calculate_club_score_spec table club_slug responses Htexts)
    as (reasoning & Hscore & Hexp).
  rewrite Hscore. by rewrite (explained_reason_items _ _ _ Hexp).
Qed.

Lemma Zsum_perm l1 l2 : l1 ≡ₚ l2 → Zsum l1 = Zsum l2.
Proof.
  unfold Zsum. induction 1 as [|x l1 l2 _ IH|x y l|l1 l2 l3 _ IH1 _ IH2]; simpl; lia.
Qed.

Lemma scored_entries_perm r1 r2 : r1 ≡ₚ r2 → scored_entries r1 ≡ₚ scored_entries r2.
Proof. intros H. unfold scored_entries. by rewrite H. Qed.

(** X1. The total does not depend on the order of the response dictionary;
    only the order of the reasoning does. *)
Theorem score_ignores_response_order table club_slug r1 r2 :
  texts_cover table = true →
  r1 ≡ₚ r2 →
  ∃ total reasoning1 reasoning2,
    calculate_club_score table club_slug r1 = Ok (total, reasoning1) ∧
    calculate_club_score table club_slug r2 = Ok (total, reasoning2) ∧
    reasoning1 ≡ₚ reasoning2.
Proof.
  intros Htexts Hperm.
  exists (weight_sum table club_slug r1). eexists. eexists.
  split; [by apply calculate_club_score_closed|]. split.
  - rewrite calculate_club_score_closed by done. f_equal. f_equal.
    unfold weight_sum. apply Zsum_perm, Permutation_map.
    symmetry. by apply scored_entries_perm.
  - apply Permutation_map. unfold explained_entries.
    by rewrite (scored_entries_perm _ _ Hperm).
Qed.

Lemma score_ignores_response_order_witness :
  texts_cover CLUB_SCORING_RULES = true ∧
  [("past", "coding"); ("enjoy", "coding")] ≡ₚ [("enjoy", "coding"); ("past", "coding")] ∧
  ∃ total reasoning1 reasoning2,
    calculate_club_score CLUB_SCORING_RULES "acm"
      [("past", "coding"); ("enjoy", "coding")] = Ok (total, reasoning1) ∧
    calculate_club_score CLUB_SCORING_RULES "acm"
      [("enjoy", "coding"); ("past", "coding")] = Ok (total, reasoning2) ∧
    reasoning1 ≡ₚ reasoning2.
Proof.
  assert (Htexts : texts_cover CLUB_SCORING_RULES = true)
    by (vm_compute; reflexivity).
  assert (Hperm : [("past", "coding"); ("enjoy", "coding")]
                  ≡ₚ [("enjoy", "coding"); ("past", "coding")])
    by apply Permutation_swap.
  split; [exact Htexts|]. split; [exact Hperm|].
  exact (score_ignores_response_order CLUB_SCORING_RULES "acm" _ _ Htexts Hperm).
Defined.

Lemma positive_part_sum (w : string * string → Z) (l : list (string * string)) :
  Zsum (map w l) ≤ Zsum (map w (filter (λ kv, 0 < w kv) l)) ∧
  (Forall (λ kv, 0 ≤ w kv) l →
   Zsum (map w (filter (λ kv, 0 < w kv) l)) = Zsum (map w l)).
Proof.
  induction l as [|kv l [IHle IHeq]]; [done|].
  rewrite filter_cons. unfold Zsum in *.
  destruct (decide (0 < w kv)); simpl; split; try lia.
  - intros [_ Hl]%Forall_cons. specialize (IHeq Hl). lia.
  - intros [Hkv Hl]%Forall_cons. specialize (IHeq Hl). lia.
Qed.

Lemma reason_item_contributions rules entries :
  map contribution (map (reason_item rules) entries)
  = map (λ kv, rule_weight rules kv.1 kv.2) entries.
Proof. rewrite map_map. reflexivity. Qed.

(** X2. The contributions that the reasoning shows add up to at least the
    total, and to exactly the total when no answer given has a negative
    weight. *)
Theorem reasoning_sum_bounds_total table club_slug responses :
  texts_cover table = true →
  ∃ total reasoning,
    calculate_club_score table club_slug responses = Ok (total, reasoning) ∧
    total ≤ Zsum (map contribution reasoning) ∧
    (Forall (λ kv, 0 ≤ table_weight table club_slug kv.1 kv.2) responses →
     Zsum (map contribution reasoning) = total).
Proof.
  intros Htexts. eexists _, _.
  split; [by apply calculate_club_score_closed|].
  rewrite reason_item_contributions. unfold explained_entries, weight_sum.
  destruct (positive_part_sum (λ kv, table_weight table club_slug kv.1 kv.2)
              (scored_entries responses)) as [Hle Heq].
  split; [exact Hle|]. intros Hnonneg. apply Heq.
  unfold scored_entries. apply Forall_forall. intros kv [_ Hin]%list_elem_of_filter.
  rewrite Forall_forall in Hnonneg. by apply Hnonneg.
Qed.

Lemma reasoning_sum_bounds_total_witness :
  texts_cover CLUB_SCORING_RULES = true ∧
  ∃ total reasoning,
    calculate_club_score CLUB_SCORING_RULES "nss" (model_dump sample_responses)
    = Ok (total, reasoning) ∧
    total ≤ Zsum (map contribution reasoning).
Proof.
  assert (Htexts : texts_cover CLUB_SCORING_RULES = true)
    by (vm_compute; reflexivity).
  split; [exact Htexts|].
  destruct (reasoning_sum_bounds_total CLUB_SCORING_RULES "nss"
              (model_dump sample_responses) Htexts)
    as (total & reasoning & Hscore & Hle & _).
  exists total, reasoning. split; [exact Hscore|exact Hle].
Defined.

Lemma weights_within_weight lo hi table club_slug q a :
  weights_within lo hi table = true → lo ≤ 0 ≤ hi →
  lo ≤ table_weight table club_slug q a ≤ hi.
Proof.
  unfold weights_within. rewrite forallb_forall. intros Hall Hzero.
  unfold table_weight, dict_get, rule_weight.
  destruct (table !! club_slug) as [rules|] eqn:Erules; simpl;
    [|by rewrite lookup_empty].
  destruct (rules !! q) as [answers|] eqn:Eq; [|done].
  destruct (answers !! a) as [w|] eqn:Ea; [|done]. simpl.
  specialize (Hall (club_slug, rules)). rewrite forallb_forall in Hall.
  specialize (Hall ltac:(by apply list_elem_of_In, elem_of_map_to_list) (q, answers)).
  rewrite forallb_forall in Hall.
  specialize (Hall ltac:(by apply list_elem_of_In, elem_of_map_to_list) (a, w)).
  specialize (Hall ltac:(by apply list_elem_of_In, elem_of_map_to_list)).
  apply andb_true_iff in Hall as [?%Z.leb_le ?%Z.leb_le]. done.
Qed.

Lemma Zsum_bounds (w : string * string → Z) lo hi (l : list (string * string)) :
  Forall (λ kv, lo ≤ w kv ≤ hi) l →
  lo * Z.of_nat (length l) ≤ Zsum (map w l) ≤ hi * Z.of_nat (length l).
Proof.
  unfold Zsum. induction 1 as [|kv l Hkv _ IH]; simpl length; simpl; lia.
Qed.

Lemma shipped_weights_within : weights_within 0 5 CLUB_SCORING_RULES = true.
Proof. vm_compute. reflexivity. Qed.

(** X3. With a table whose weights all lie between 0 and [hi], a score lies
    between 0 and [hi] times the number of answers other than [time], and the
    contributions shown in the reasoning add up to the score.  The shipped
    table has [hi = 5], so the five answers of a submission score at most
    20. *)
Theorem score_within_weight_bounds table hi club_slug responses :
  texts_cover table = true →
  weights_within 0 hi table = true →
  0 ≤ hi →
  ∃ total reasoning,
    calculate_club_score table club_slug responses = Ok (total, reasoning) ∧
    0 ≤ total ≤ hi * Z.of_nat (length (scored_entries responses)) ∧
    Zsum (map contribution reasoning) = total ∧
    (∀ r, responses = model_dump r → total ≤ hi * 4).
Proof.
  intros Htexts Hwithin Hhi. eexists _, _.
  split; [by apply calculate_club_score_closed|].
  assert (Hbound : ∀ l : list (string * string),
            Forall (λ kv, 0 ≤ table_weight table club_slug kv.1 kv.2 ≤ hi) l).
  { intros l. apply Forall_forall. intros kv _.
    apply (weights_within_weight 0 hi); [done|lia]. }
  assert (Htotal : 0 ≤ weight_sum table club_slug responses
                   ≤ hi * Z.of_nat (length (scored_entries responses))).
  { unfold weight_sum.
    pose proof (Zsum_bounds (λ kv, table_weight table club_slug kv.1 kv.2) 0 hi
                  (scored_entries responses) (Hbound _)). lia. }
  split; [exact Htotal|]. split.
  - rewrite reason_item_contributions. unfold explained_entries, weight_sum.
    apply (positive_part_sum (λ kv, table_weight table club_slug kv.1 kv.2)).
    eapply Forall_impl; [apply Hbound|]. simpl. intros; lia.
  - intros r ->.
    assert (Hlen : length (scored_entries (model_dump r)) = 4%nat) by reflexivity.
    rewrite Hlen in Htotal. lia.
Qed.

Lemma score_within_weight_bounds_witness :
  texts_cover CLUB_SCORING_RULES = true ∧
  weights_within 0 5 CLUB_SCORING_RULES = true ∧
  0 ≤ 5 ∧
  ∃ total reasoning,
    calculate_club_score CLUB_SCORING_RULES "codeio" (model_dump sample_responses)
    = Ok (total, reasoning) ∧
    0 ≤ total ≤ 20 ∧ Zsum (map contribution reasoning) = total.
Proof.
  assert (Htexts : texts_cover CLUB_SCORING_RULES = true)
    by (vm_compute; reflexivity).
  assert (Hwithin : weights_within 0 5 CLUB_SCORING_RULES = true)
    by (vm_compute; reflexivity).
  assert (Hhi : 0 ≤ 5) by lia.
  split; [exact Htexts|]. split; [exact Hwithin|]. split; [exact Hhi|].
  destruct (score_within_weight_bounds CLUB_SCORING_RULES 5 "codeio"
              (model_dump sample_responses) Htexts Hwithin Hhi)
    as (total & reasoning & Hscore & [Hlo _] & Hsum & Hcap).
  exists total, reasoning. split; [exact Hscore|]. split; [|exact Hsum].
  split; [exact Hlo|]. specialize (Hcap sample_responses eq_refl). lia.
Defined.

(** ** Missing texts *)

Lemma score_step_cases rules acc q a :
  (∃ acc', score_step rules acc (q, a) = Ok acc') ∨
  (score_step rules acc (q, a) = Raise (KeyError q) ∧ lacks_text q).
Proof.
  destruct acc as [t rs]. unfold score_step.
  destruct (String.eqb q "time"); [by eauto|].
  destruct (rules !! q) as [answers|]; [|by eauto].
  destruct (answers !! a) as [c|]; [|by eauto].
  destruct (0 <? c); [|by eauto].
  unfold getitem, lacks_text.
  destruct (QUESTION_TEXT !! q); simpl; [|by right; eauto].
  destruct (ANSWER_TEXT !! q); simpl; [by eauto|by right; eauto].
Qed.

Lemma score_step_raises rules acc q a :
  q ≠ "time" → 0 < rule_weight rules q a → lacks_text q →
  score_step rules acc (q, a) = Raise (KeyError q).
Proof.
  intros Htime%String.eqb_neq Hpos Hlacks. destruct acc as [t rs].
  unfold score_step. rewrite Htime. unfold rule_weight in Hpos.
  destruct (rules !! q) as [answers|]; [|lia].
  destruct (answers !! a) as [c|]; simpl in Hpos; [|lia].
  apply Z.ltb_lt in Hpos. rewrite Hpos. unfold getitem.
  destruct Hlacks as [->| Hans]; [done|].
  destruct (QUESTION_TEXT !! q); simpl; [by rewrite Hans|done].
Qed.

Lemma score_loop_raises rules q a l :
  (q, a) ∈ l → q ≠ "time" → 0 < rule_weight rules q a → lacks_text q →
  ∀ acc, ∃ k, for_each (score_step rules) l acc = Raise (KeyError k) ∧
              lacks_text k ∧ k ∈ map fst l.
Proof.
  intros Hin Htime Hpos Hlacks.
  induction l as [|[q' a'] l IH]; intros acc; [by apply elem_of_nil in Hin|].
  rewrite for_each_cons.
  destruct (score_step_cases rules acc q' a') as [[acc' Hok]|[Hraise Hl]].
  - apply elem_of_cons in Hin as [Heq|Hin].
    + injection Heq as <- <-. rewrite score_step_raises in Hok by done. done.
    + rewrite Hok. simpl. destruct (IH Hin acc') as (k & Hk & Hkl & Hkin).
      exists k. split; [done|]. split; [done|]. simpl. by right.
  - exists q'. rewrite Hraise. split; [done|]. split; [done|]. simpl. by left.
Qed.

(** X4. An answer with a positive weight to a question that has no text makes
    [calculate_club_score] raise [KeyError] on a key of the responses that
    lacks a text. *)
Theorem missing_text_raises_KeyError table club_slug responses q a :
  (q, a) ∈ responses →
  q ≠ "time" →
  0 < table_weight table club_slug q a →
  lacks_text q →
  ∃ k, calculate_club_score table club_slug responses = Raise (KeyError k) ∧
       lacks_text k ∧ k ∈ map fst responses.
Proof.
  intros Hin Htime Hpos Hlacks. unfold calculate_club_score.
  by eapply score_loop_raises.
Qed.

Lemma missing_text_raises_KeyError_witness :
  ("style", "blitz") ∈ [("enjoy", "coding"); ("style", "blitz")] ∧
  "style" ≠ "time" ∧
  0 < table_weight untexted_table "chess" "style" "blitz" ∧
  lacks_text "style" ∧
  calculate_club_score untexted_table "chess"
    [("enjoy", "coding"); ("style", "blitz")] = Raise (KeyError "style").
Proof.
  assert (Hin : ("style", "blitz") ∈ [("enjoy", "coding"); ("style", "blitz")])
    by (right; left).
  assert (Htime : "style" ≠ "time") by discriminate.
  assert (Hpos : 0 < table_weight untexted_table "chess" "style" "blitz")
    by (vm_compute; reflexivity).
  assert (Hlacks : lacks_text "style") by (left; vm_compute; reflexivity).
  split; [exact Hin|]. split; [exact Htime|]. split; [exact Hpos|].
  split; [exact Hlacks|].
  destruct (missing_text_raises_KeyError untexted_table "chess"
              [("enjoy", "coding"); ("style", "blitz")] "style" "blitz"
              Hin Htime Hpos Hlacks) as (k & Hk & _).
  rewrite Hk. vm_compute in Hk. injection Hk as ->. reflexivity.
Defined.

(** ** The recommendation list *)

Lemma get_club_recommendations_scored table db responses top_n :
  texts_cover table = true →
  get_club_recommendations table db responses top_n
  = Ok (map ranked
          (enumerate 1
             (slice_to top_n
                (py_sorted sc_score true (scored_candidates table db responses))))).
Proof. apply get_club_recommendations_spec. Qed.

Lemma slice_to_length_exact {A} (n : Z) (l : list A) :
  Z.of_nat (length (slice_to n l))
  = if 0 <=? n then Z.min n (Z.of_nat (length l))
    else Z.max 0 (Z.of_nat (length l) + n).
Proof.
  unfold slice_to. destruct (Z.leb_spec 0 n); rewrite length_take; lia.
Qed.

(** X5. The number of recommendations: [top_n] or the number of candidates,
    whichever is smaller; a negative [top_n] drops that many candidates from
    the end of the ranking instead. *)
Theorem recommendation_count table db responses top_n :
  texts_cover table = true →
  ∃ recs,
    get_club_recommendations table db responses top_n = Ok recs ∧
    Z.of_nat (length recs)
    = if 0 <=? top_n
      then Z.min top_n (Z.of_nat (length (candidate_clubs table (active_clubs db))))
      else Z.max 0 (Z.of_nat (length (candidate_clubs table (active_clubs db))) + top_n).
Proof.
  intros Htexts. eexists. split; [by apply get_club_recommendations_scored|].
  rewrite length_map, enumerate_length, slice_to_length_exact, py_sorted_length.
  unfold scored_candidates. by rewrite length_map.
Qed.

Lemma recommendation_count_witness :
  texts_cover CLUB_SCORING_RULES = true ∧
  ∃ recs,
    get_club_recommendations CLUB_SCORING_RULES sample_db
      (model_dump sample_responses) 0 = Ok recs ∧
    Z.of_nat (length recs) = 0.
Proof.
  assert (Htexts : texts_cover CLUB_SCORING_RULES = true)
    by (vm_compute; reflexivity).
  split; [exact Htexts|].
  destruct (recommendation_count CLUB_SCORING_RULES sample_db
              (model_dump sample_responses) 0 Htexts) as (recs & Hrecs & Hlen).
  exists recs. split; [exact Hrecs|]. rewrite Hlen. reflexivity.
Defined.

Lemma unranked_ranked (l : list ScoredClub) : ∀ start,
  map unranked (map ranked (enumerate start l)) = l.
Proof.
  induction l as [|[c s r] l IH]; intros start; [done|].
  simpl. rewrite IH. reflexivity.
Qed.

(** X6. The recommendations are the best candidates: together with the
    candidates left out they are all the scored candidates, and no candidate
    left out scores higher than one that is returned. *)
Theorem recommendations_are_top_scoring table db responses top_n :
  texts_cover table = true →
  ∃ recs dropped,
    get_club_recommendations table db responses top_n = Ok recs ∧
    map unranked recs ++ dropped ≡ₚ scored_candidates table db responses ∧
    ∀ rec d, rec ∈ recs → d ∈ dropped → sc_score d ≤ score rec.
Proof.
  intros Htexts.
  set (sorted := py_sorted sc_score true (scored_candidates table db responses)).
  destruct (slice_to_take top_n sorted) as (k & Hk & _).
  exists (map ranked (enumerate 1 (slice_to top_n sorted))), (drop k sorted).
  split; [by apply get_club_recommendations_scored|].
  rewrite Hk, unranked_ranked, take_drop. split.
  - apply py_sorted_perm.
  - intros rec d Hrec Hd.
    assert (Hsorted : StronglySorted (ordered sc_score true) (take k sorted ++ drop k sorted)).
    { rewrite take_drop. apply py_sorted_sorted. }
    assert (Hin : unranked rec ∈ take k sorted).
    { rewrite <- (unranked_ranked (take k sorted) 1).
      apply list_elem_of_In, in_map, list_elem_of_In, Hrec. }
    apply (StronglySorted_app_1_elem_of _ _ _ _ _ Hsorted Hin Hd).
Qed.

Lemma recommendations_are_top_scoring_witness :
  texts_cover CLUB_SCORING_RULES = true ∧
  ∃ recs dropped,
    get_club_recommendations CLUB_SCORING_RULES sample_db
      (model_dump sample_responses) 2 = Ok recs ∧
    map unranked recs ++ dropped
    ≡ₚ scored_candidates CLUB_SCORING_RULES sample_db (model_dump sample_responses) ∧
    ∀ rec d, rec ∈ recs → d ∈ dropped → sc_score d ≤ score rec.
Proof.
  assert (Htexts : texts_cover CLUB_SCORING_RULES = true)
    by (vm_compute; reflexivity).
  split; [exact Htexts|].
  exact (recommendations_are_top_scoring CLUB_SCORING_RULES sample_db
           (model_dump sample_responses) 2 Htexts).
Defined.

Lemma ranked_filter_clubs (s : Z) (l : list ScoredClub) : ∀ start,
  map club (filter (λ rec, score rec = s) (map ranked (enumerate start l)))
  = map sc_club (filter (λ sc, sc_score sc = s) l).
Proof.
  induction l as [|sc l IH]; intros start; [done|].
  simpl. rewrite !filter_cons. simpl.
  destruct (decide (sc_score sc = s)); simpl; by rewrite IH.
Qed.

Lemma scored_filter_clubs table responses (s : Z) (l : list Club.t) :
  map sc_club (filter (λ sc, sc_score sc = s) (map (scored_club table responses) l))
  = map club_dict
      (filter (λ c, (score_of table (Club.slug c) responses).1 = s) l).
Proof.
  induction l as [|c l IH]; [done|].
  simpl. rewrite !filter_cons. simpl.
  destruct (decide ((score_of table (Club.slug c) responses).1 = s)); simpl;
    by rewrite IH.
Qed.

Lemma filter_take_prefix {A} (P : A → Prop) `{∀ x, Decision (P x)} (k : nat) (l : list A) :
  filter P (take k l) `prefix_of` filter P l.
Proof.
  exists (filter P (drop k l)). by rewrite <- filter_app, take_drop.
Qed.

Lemma map_prefix {A B} (f : A → B) (l1 l2 : list A) :
  l1 `prefix_of` l2 → map f l1 `prefix_of` map f l2.
Proof. intros [k ->]. exists (map f k). apply map_app. Qed.

(** X7. Ties are broken by the order of the directory: the recommended clubs
    of any one score are the first candidates with that score, in the order
    in which the directory lists them. *)
Theorem ties_keep_directory_order table db responses top_n s :
  texts_cover table = true →
  ∃ recs,
    get_club_recommendations table db responses top_n = Ok recs ∧
    map club (filter (λ rec, score rec = s) recs)
    `prefix_of`
    map club_dict
      (filter (λ c, (score_of table (Club.slug c) responses).1 = s)
         (candidate_clubs table (active_clubs db))).
Proof.
  intros Htexts. eexists. split; [by apply get_club_recommendations_scored|].
  rewrite ranked_filter_clubs.
  destruct (slice_to_take top_n
              (py_sorted sc_score true (scored_candidates table db responses)))
    as (k & -> & _).
  rewrite <- scored_filter_clubs.
  rewrite <- (py_sorted_stable sc_score true s
                (map (scored_club table responses)
                   (candidate_clubs table (active_clubs db)))).
  apply map_prefix. apply filter_take_prefix.
Qed.

Lemma ties_keep_directory_order_witness :
  texts_cover CLUB_SCORING_RULES = true ∧
  ∃ recs,
    get_club_recommendations CLUB_SCORING_RULES tie_db
      (model_dump sample_responses) 10 = Ok recs ∧
    map (λ rec, (cs_slug (club rec), score rec)) recs = [("aero", 8); ("aquila", 8)] ∧
    map club (filter (λ rec, score rec = 8) recs)
    `prefix_of`
    map club_dict
      (filter (λ c, (score_of CLUB_SCORING_RULES (Club.slug c)
                       (model_dump sample_responses)).1 = 8)
         (candidate_clubs CLUB_SCORING_RULES (active_clubs tie_db))).
Proof.
  assert (Htexts : texts_cover CLUB_SCORING_RULES = true)
    by (vm_compute; reflexivity).
  split; [exact Htexts|].
  destruct (ties_keep_directory_order CLUB_SCORING_RULES tie_db
              (model_dump sample_responses) 10 8 Htexts) as (recs & Hrecs & Hprefix).
  exists recs. split; [exact Hrecs|]. split; [|exact Hprefix].
  assert (Hrun : ∃ recs',
            get_club_recommendations CLUB_SCORING_RULES tie_db
              (model_dump sample_responses) 10 = Ok recs' ∧
            map (λ rec, (cs_slug (club rec), score rec)) recs'
            = [("aero", 8); ("aquila", 8)]).
  { eexists. split; vm_compute; reflexivity. }
  destruct Hrun as (recs' & Hrecs' & Hshape).
  rewrite Hrecs' in Hrecs. injection Hrecs as <-. exact Hshape.
Defined.

Lemma ranked_slugs (l : list ScoredClub) : ∀ start,
  map (λ rec, cs_slug (club rec)) (map ranked (enumerate start l))
  = map (λ sc, cs_slug (sc_club sc)) l.
Proof.
  induction l as [|sc l IH]; intros start; [done|]. simpl. by rewrite IH.
Qed.

Lemma scored_candidates_slugs table db responses :
  map (λ sc, cs_slug (sc_club sc)) (scored_candidates table db responses)
  = map Club.slug (candidate_clubs table (active_clubs db)).
Proof. unfold scored_candidates. rewrite map_map. reflexivity. Qed.

(** X8. When the slugs of the active clubs are distinct, as the unique index
    on [clubs.slug] makes them, no club is recommended twice, so the rows
    stored for one assessment name distinct clubs. *)
Theorem no_club_recommended_twice table db responses top_n assessment_id :
  texts_cover table = true →
  NoDup (map Club.slug (active_clubs db)) →
  ∃ recs,
    get_club_recommendations table db responses top_n = Ok recs ∧
    NoDup (map (λ rec, cs_slug (club rec)) recs) ∧
    NoDup (map Recommendation.club_id (map (recommendation_row assessment_id) recs)).
Proof.
  intros Htexts Hnodup. eexists.
  split; [by apply get_club_recommendations_scored|].
  assert (Hslugs : NoDup
            (map (λ rec, cs_slug (club rec))
               (map ranked
                  (enumerate 1
                     (slice_to top_n
                        (py_sorted sc_score true
                           (scored_candidates table db responses))))))).
  { rewrite ranked_slugs.
    destruct (slice_to_take top_n
                (py_sorted sc_score true (scored_candidates table db responses)))
      as (k & -> & _).
    apply (sublist_NoDup _
             (map (λ sc, cs_slug (sc_club sc))
                (py_sorted sc_score true (scored_candidates table db responses)))).
    - rewrite (py_sorted_perm sc_score true), scored_candidates_slugs.
      apply (sublist_NoDup _ (map Club.slug (active_clubs db))); [exact Hnodup|].
      apply (fmap_sublist Club.slug). unfold candidate_clubs. apply sublist_filter.
    - apply (fmap_sublist (λ sc, cs_slug (sc_club sc))). apply sublist_take. }
  split; [exact Hslugs|]. by rewrite map_map.
Qed.

Lemma no_club_recommended_twice_witness :
  texts_cover CLUB_SCORING_RULES = true ∧
  NoDup (map Club.slug (active_clubs sample_db)) ∧
  ∃ recs,
    get_club_recommendations CLUB_SCORING_RULES sample_db
      (model_dump sample_responses) 10 = Ok recs ∧
    NoDup (map (λ rec, cs_slug (club rec)) recs).
Proof.
  assert (Htexts : texts_cover CLUB_SCORING_RULES = true)
    by (vm_compute; reflexivity).
  assert (Hnodup : NoDup (map Club.slug (active_clubs sample_db))).
  { apply (bool_decide_unpack (NoDup (map Club.slug (active_clubs sample_db)))).
    vm_compute. exact I. }
  split; [exact Htexts|]. split; [exact Hnodup|].
  destruct (no_club_recommended_twice CLUB_SCORING_RULES sample_db
              (model_dump sample_responses) 10 7 Htexts Hnodup)
    as (recs & Hrecs & Hslugs & _).
  exists recs. split; [exact Hrecs|exact Hslugs].
Defined.

(** ** The database across a submission *)

(** The assessment data the endpoint hands to [create_assessment]. *)
Lemma submit_assessment_state table db assessment_data current_user new_id now :
  (submit_assessment table db assessment_data current_user new_id now).1
  = (create_assessment table db
       {| ac_responses := ac_responses assessment_data;
          ac_user_id := owner_of assessment_data current_user |} new_id now).1.
Proof.
  unfold submit_assessment.
  replace (match current_user with
           | Some uid => {| ac_responses := ac_responses assessment_data;
                            ac_user_id := Some (UUID_str uid) |}
           | None => assessment_data
           end)
    with {| ac_responses := ac_responses assessment_data;
            ac_user_id := owner_of assessment_data current_user |}
    by (unfold owner_of; destruct current_user, assessment_data; reflexivity).
  destruct (create_assessment _ _ _ _ _) as [db' [a|e]]; [|done].
  simpl. by destruct (get_club_recommendations _ _ _ _).
Qed.

(** What [create_assessment] leaves in the database: nothing when the id
    is taken, otherwise the assessment and rows that all belong to it. *)
Lemma create_assessment_state table db assessment_data new_id now :
  ((new_id ∈ map Assessment.id (assessments db)) ∧
   create_assessment table db assessment_data new_id now
   = (db, Raise (IntegrityError "duplicate key value violates unique constraint"))) ∨
  ((new_id ∉ map Assessment.id (assessments db)) ∧
   ∃ rows,
     Forall (λ r, Recommendation.assessment_id r = new_id) rows ∧
     (create_assessment table db assessment_data new_id now).1
     = {| clubs := clubs db;
          assessments :=
            assessments db ++ [new_assessment assessment_data None new_id now];
          recommendations := recommendations db ++ rows |}).
Proof.
  unfold create_assessment, insert_assessment. simpl.
  destruct (decide (new_id ∈ map Assessment.id (assessments db))) as [Hin|Hfresh].
  - left. by rewrite bool_decide_eq_true_2.
  - right. split; [exact Hfresh|]. rewrite bool_decide_eq_false_2 by done.
    destruct (get_club_recommendations _ _ _ _) as [recs|e]; simpl.
    + exists (map (recommendation_row new_id) recs). split; [|reflexivity].
      apply Forall_forall. by intros r [rec [<- _]]%list_elem_of_In%in_map_iff.
    + exists []. split; [constructor|]. by rewrite app_nil_r.
Qed.

(** X9. Whatever the outcome of a submission, the database it leaves keeps the
    directory and every stored row, every recommendation row still belongs
    to a stored assessment, and the assessment ids are still distinct. *)
Theorem submission_keeps_database_consistent table db assessment_data current_user
    new_id now :
  foreign_keys_hold db →
  primary_keys_unique db →
  let db' := (submit_assessment table db assessment_data current_user new_id now).1 in
  db_extends db db' ∧ foreign_keys_hold db' ∧ primary_keys_unique db'.
Proof.
  intros Hfk Hpk db'. unfold db'. rewrite submit_assessment_state.
  destruct (create_assessment_state table db
              {| ac_responses := ac_responses assessment_data;
                 ac_user_id := owner_of assessment_data current_user |} new_id now)
    as [[_ ->]|(Hfresh & rows & Hrows & ->)]; simpl.
  - done.
  - split; [|split].
    + split; [done|]. split; by apply prefix_app_r.
    + intros r. unfold foreign_keys_hold in *. simpl.
      rewrite map_app, !elem_of_app. intros [Hold|Hnew].
      * left. by apply Hfk.
      * right. rewrite Forall_forall in Hrows. rewrite (Hrows r Hnew). by left.
    + unfold primary_keys_unique in *. simpl. rewrite map_app.
      apply NoDup_app. split; [exact Hpk|]. split.
      * simpl. intros x Hx [->|[]%elem_of_nil]%elem_of_cons. done.
      * simpl. apply NoDup_singleton.
Qed.

Lemma submission_keeps_database_consistent_witness :
  foreign_keys_hold archived_db ∧
  primary_keys_unique archived_db ∧
  db_extends archived_db
    (submit_assessment CLUB_SCORING_RULES archived_db sample_submission None 8 2000).1 ∧
  foreign_keys_hold
    (submit_assessment CLUB_SCORING_RULES archived_db sample_submission None 8 2000).1.
Proof.
  assert (Hfk : foreign_keys_hold archived_db).
  { intros r Hr.
    change (r ∈ recommendations archived_db) in Hr. unfold archived_db in Hr.
    cbn [recommendations] in Hr.
    repeat (apply elem_of_cons in Hr as [->|Hr]; [by left|]).
    by apply elem_of_nil in Hr. }
  assert (Hpk : primary_keys_unique archived_db) by apply NoDup_singleton.
  split; [exact Hfk|]. split; [exact Hpk|].
  destruct (submission_keeps_database_consistent CLUB_SCORING_RULES archived_db
              sample_submission None 8 2000 Hfk Hpk) as (Hext & Hfk' & _).
  split; [exact Hext|exact Hfk'].
Defined.

(** X10. A submission whose new id is already the id of a stored assessment
    fails with status 500 and leaves the database as it was. *)
Theorem duplicate_id_fails_cleanly table db assessment_data current_user new_id now :
  new_id ∈ map Assessment.id (assessments db) →
  ∃ detail,
    submit_assessment table db assessment_data current_user new_id now
    = (db, HTTPException HTTP_500_INTERNAL_SERVER_ERROR detail).
Proof.
  intros Hin. eexists. unfold submit_assessment, create_assessment, insert_assessment.
  simpl. rewrite bool_decide_eq_true_2 by exact Hin. reflexivity.
Qed.

Lemma duplicate_id_fails_cleanly_witness :
  ((7 : UUID) ∈ map Assessment.id (assessments archived_db)) ∧
  ∃ detail,
    submit_assessment CLUB_SCORING_RULES archived_db sample_submission None 7 2000
    = (archived_db, HTTPException HTTP_500_INTERNAL_SERVER_ERROR detail).
Proof.
  assert (Hin : (7 : UUID) ∈ map Assessment.id (assessments archived_db)) by left.
  split; [exact Hin|].
  exact (duplicate_id_fails_cleanly CLUB_SCORING_RULES archived_db sample_submission
           None 7 2000 Hin).
Defined.

Lemma head_app_Some {A} (l k : list A) x : head l = Some x → head (l ++ k) = Some x.
Proof. by destruct l. Qed.

(** X11. A submission does not change what [get_assessment] answers for an
    assessment that was stored before it. *)
Theorem earlier_assessments_unaffected UUID_of_str table db assessment_data
    current_user new_id now assessment_id a :
  get_assessment_by_id UUID_of_str db assessment_id = Some a →
  get_assessment UUID_of_str
    (submit_assessment table db assessment_data current_user new_id now).1
    assessment_id
  = get_assessment UUID_of_str db assessment_id.
Proof.
  intros Hfound. rewrite submit_assessment_state.
  destruct (create_assessment_state table db
              {| ac_responses := ac_responses assessment_data;
                 ac_user_id := owner_of assessment_data current_user |} new_id now)
    as [[_ ->]|(Hfresh & rows & Hrows & ->)]; [done|].
  pose proof (get_assessment_by_id_Some _ _ _ _ Hfound) as [Ha Hparse].
  set (db' := {| clubs := clubs db; assessments := _; recommendations := _ |}).
  assert (Hfound' : get_assessment_by_id UUID_of_str db' assessment_id = Some a).
  { revert Hfound. unfold get_assessment_by_id. rewrite Hparse. simpl.
    rewrite filter_app. apply head_app_Some. }
  assert (Hread : assessment_recommendations db' a = assessment_recommendations db a).
  { unfold assessment_recommendations. simpl. rewrite filter_app.
    rewrite (filter_rows_other (Assessment.id a) rows); [by rewrite app_nil_r|].
    intros r Hr Heq. rewrite Forall_forall in Hrows. rewrite (Hrows r Hr) in Heq.
    apply Hfresh. rewrite Heq.
    apply list_elem_of_In, in_map, list_elem_of_In, Ha. }
  unfold get_assessment. rewrite Hfound, Hfound', Hread. reflexivity.
Qed.

Lemma earlier_assessments_unaffected_witness :
  get_assessment_by_id UUID_of_hex archived_db "00000000-0000-0000-0000-000000000007"
  = Some archived_assessment ∧
  get_assessment UUID_of_hex
    (submit_assessment CLUB_SCORING_RULES archived_db sample_submission None 8 2000).1
    "00000000-0000-0000-0000-000000000007"
  = get_assessment UUID_of_hex archived_db "00000000-0000-0000-0000-000000000007".
Proof.
  assert (Hfound : get_assessment_by_id UUID_of_hex archived_db
                     "00000000-0000-0000-0000-000000000007"
                   = Some archived_assessment) by (vm_compute; reflexivity).
  split; [exact Hfound|].
  exact (earlier_assessments_unaffected UUID_of_hex CLUB_SCORING_RULES archived_db
           sample_submission None 8 2000 _ _ Hfound).
Defined.

(** ** Display fields *)

Lemma get_club_by_slug_unique db c :
  NoDup (map Club.slug (clubs db)) → c ∈ clubs db →
  get_club_by_slug db (Club.slug c) = Some c.
Proof.
  unfold get_club_by_slug. induction (clubs db) as [|c' l IH]; intros Hnodup Hin.
  - by apply elem_of_nil in Hin.
  - simpl in Hnodup. apply NoDup_cons in Hnodup as [Hnotin Hnodup].
    rewrite filter_cons. apply elem_of_cons in Hin as [->|Hin].
    + by rewrite decide_True.
    + rewrite decide_False; [by apply IH|].
      intros Heq. apply Hnotin. rewrite Heq.
      apply list_elem_of_In, in_map, list_elem_of_In, Hin.
Qed.

Lemma str_or_cases (o : option string) (dflt : string) :
  str_or o "" ≠ "" ∧ str_or o dflt = str_or o "" ∨
  str_or o "" = "" ∧ str_or o dflt = dflt.
Proof. destruct o as [[|c s]|]; simpl; [by right|by left|by right]. Qed.

(** X12. With distinct slugs in an unchanged directory, a recommendation read
    back from its stored row shows the same club id, name, slug and tagline
    as when it was made.  The logo is the same when the club has one; a club
    without a logo is shown with the default image path when the
    recommendation is made and with an empty logo when it is read back. *)
Theorem display_fields_read_back table db responses top_n assessment_id :
  texts_cover table = true →
  NoDup (map Club.slug (clubs db)) →
  ∃ recs,
    get_club_recommendations table db responses top_n = Ok recs ∧
    ∀ rec, rec ∈ recs →
      let made := club rec in
      let back := club (reconstruct_recommendation db
                          (recommendation_row assessment_id rec)) in
      cs_id back = cs_id made ∧
      cs_name back = cs_name made ∧
      cs_slug back = cs_slug made ∧
      cs_tagline back = cs_tagline made ∧
      (cs_logo_url back ≠ "" ∧ cs_logo_url made = cs_logo_url back ∨
       cs_logo_url back = "" ∧
       cs_logo_url made = "/images/clubs/" +:+ cs_slug made +:+ ".jpg").
Proof.
  intros Htexts Hnodup. eexists.
  split; [by apply get_club_recommendations_spec|].
  intros rec Hrec. apply recommendation_origin in Hrec as (c & Hactive & _ & Hclub).
  assert (Hc : c ∈ clubs db).
  { unfold active_clubs in Hactive. by apply list_elem_of_filter in Hactive as [_ ?]. }
  unfold reconstruct_recommendation, recommendation_row. simpl.
  rewrite Hclub. simpl. rewrite (get_club_by_slug_unique db c Hnodup Hc). simpl.
  do 4 (split; [reflexivity|]).
  apply str_or_cases.
Qed.

Lemma display_fields_read_back_witness :
  texts_cover CLUB_SCORING_RULES = true ∧
  NoDup (map Club.slug (clubs sample_db)) ∧
  ∃ recs,
    get_club_recommendations CLUB_SCORING_RULES sample_db
      (model_dump sample_responses) 1 = Ok recs ∧
    map (λ rec, (cs_logo_url (club rec),
                 cs_logo_url (club (reconstruct_recommendation sample_db
                                      (recommendation_row 7 rec))))) recs
    = [("/images/clubs/codeio.jpg", "")].
Proof.
  assert (Htexts : texts_cover CLUB_SCORING_RULES = true)
    by (vm_compute; reflexivity).
  assert (Hnodup : NoDup (map Club.slug (clubs sample_db))).
  { apply (bool_decide_unpack (NoDup (map Club.slug (clubs sample_db)))).
    vm_compute. exact I. }
  split; [exact Htexts|]. split; [exact Hnodup|].
  destruct (display_fields_read_back CLUB_SCORING_RULES sample_db
              (model_dump sample_responses) 1 7 Htexts Hnodup) as (recs & Hrecs & _).
  exists recs. split; [exact Hrecs|].
  assert (Hrun : ∃ recs',
            get_club_recommendations CLUB_SCORING_RULES sample_db
              (model_dump sample_responses) 1 = Ok recs' ∧
            map (λ rec, (cs_logo_url (club rec),
                         cs_logo_url (club (reconstruct_recommendation sample_db
                                              (recommendation_row 7 rec))))) recs'
            = [("/images/clubs/codeio.jpg", "")]).
  { eexists. split; vm_compute; reflexivity. }
  destruct Hrun as (recs' & Hrecs' & Hshape).
  rewrite Hrecs' in Hrecs. injection Hrecs as <-. exact Hshape.
Defined.

(** ** The assessment history *)

Lemma validate_model_dump r : validate_responses (model_dump r) = Some r.
Proof. by destruct r. Qed.

Lemma py_sorted_newest_last {A} (key : A → Z) (x : A) (l : list A) :
  Forall (λ y, key y < key x) l →
  py_sorted key true (l ++ [x]) = x :: py_sorted key true l.
Proof.
  unfold py_sorted, stable_sort. rewrite foldr_app. simpl.
  induction 1 as [|y l Hy _ IH]; [done|].
  simpl. rewrite IH. simpl. unfold key_precedes at 1.
  by apply Z.ltb_lt in Hy as ->.
Qed.

Section HistoryProperties.
Variable UUID_of_str : string → option UUID.

Lemma get_user_assessments_elem db user_id limit a :
  a ∈ get_user_assessments UUID_of_str db user_id limit →
  a ∈ assessments db ∧
  ∃ u, UUID_of_str user_id = Some u ∧ owner_uuid UUID_of_str a = Some u.
Proof.
  unfold get_user_assessments.
  destruct (UUID_of_str user_id) as [u|]; [|by intros ?%elem_of_nil].
  intros Ha.
  assert (Hown : a ∈ filter (λ a, owner_uuid UUID_of_str a = Some u) (assessments db)).
  { rewrite <- (py_sorted_perm Assessment.created_at true (filter _ _)).
    rewrite <- (take_drop limit (py_sorted _ _ _)). apply elem_of_app. by left. }
  apply list_elem_of_filter in Hown as [Howner Hin]. eauto.
Qed.

(** X13. [get_user_assessments] returns at most [limit] assessments, newest
    first, each of them a stored assessment of the user; it returns all of
    the user's assessments when there are at most [limit] of them, and
    nothing, without raising, for a user id that is not a UUID. *)
Theorem user_history_is_bounded_owned_and_sorted db user_id limit :
  let history := get_user_assessments UUID_of_str db user_id limit in
  (length history ≤ limit)%nat ∧
  StronglySorted (λ a b, Assessment.created_at b ≤ Assessment.created_at a) history ∧
  (∀ a, a ∈ history →
     a ∈ assessments db ∧
     ∃ u, UUID_of_str user_id = Some u ∧ owner_uuid UUID_of_str a = Some u) ∧
  (∀ u, UUID_of_str user_id = Some u →
     (length (filter (λ a, owner_uuid UUID_of_str a = Some u) (assessments db))
      ≤ limit)%nat →
     history ≡ₚ filter (λ a, owner_uuid UUID_of_str a = Some u) (assessments db)) ∧
  (UUID_of_str user_id = None → history = []).
Proof.
  unfold get_user_assessments.
  destruct (UUID_of_str user_id) as [u|] eqn:Eparse; simpl.
  - set (own := filter (λ a, owner_uuid UUID_of_str a = Some u) (assessments db)).
    split; [rewrite length_take; lia|]. split; [|split; [|split; [|done]]].
    + apply StronglySorted_take.
      apply (py_sorted_sorted Assessment.created_at true).
    + intros a Ha.
      destruct (get_user_assessments_elem db user_id limit a) as (Hin & u' & Hu' & Ho).
      { unfold get_user_assessments. by rewrite Eparse. }
      rewrite Eparse in Hu'. injection Hu' as <-. eauto.
    + intros u' [= <-] Hlen.
      rewrite take_ge by (by rewrite py_sorted_length).
      apply py_sorted_perm.
  - split; [simpl; lia|]. split; [constructor|]. split; [|done].
    intros a Ha. by apply elem_of_nil in Ha.
Qed.

Lemma mapM_elem_of {A B} (f : A → option B) (l : list A) (k : list B) y :
  mapM f l = Some k → y ∈ k → ∃ x, x ∈ l ∧ f x = Some y.
Proof.
  intros Hmap%mapM_Some Hy. revert y Hy.
  induction Hmap as [|x y' l k Hx _ IH]; intros y Hy.
  - by apply elem_of_nil in Hy.
  - apply elem_of_cons in Hy as [->|Hy].
    + exists x. split; [by left|done].
    + destruct (IH y Hy) as (x' & Hx' & Hfx'). exists x'. split; [by right|done].
Qed.

(** X14. The history endpoint shows a user only assessments of their own:
    another user's id is refused with status 403, and every entry of an
    answer is an assessment stored for the authenticated user. *)
Theorem history_is_private db user_id current_user :
  UUID_of_str (UUID_str current_user) = Some current_user →
  (UUID_str current_user ≠ user_id →
   user_assessments_endpoint UUID_of_str db user_id current_user
   = HTTPException HTTP_403_FORBIDDEN "You can only access your own assessments") ∧
  (∀ entries,
     user_assessments_endpoint UUID_of_str db user_id current_user = Response entries →
     Forall (λ entry, resp_user_id entry = Some current_user ∧
                      resp_id entry ∈ map Assessment.id (assessments db)) entries).
Proof.
  intros Hparse. unfold user_assessments_endpoint. split.
  - intros Hother%String.eqb_neq. by rewrite Hother.
  - intros entries. destruct (String.eqb_spec (UUID_str current_user) user_id)
      as [<-|Hother]; [|done]. simpl.
    destruct (mapM _ _) as [entries'|] eqn:Emap; [|done]. intros [= <-].
    apply Forall_forall. intros entry Hentry.
    destruct (mapM_elem_of _ _ _ _ Emap Hentry) as (a & Ha & Hresp).
    destruct (get_user_assessments_elem db
                (UUID_str current_user) 10 a Ha) as (Hin & u & Hu & Howner).
    unfold assessment_response in Hresp.
    destruct (validate_responses _); [|done]. simpl in Hresp.
    injection Hresp as <-. simpl. split.
    + rewrite Howner. congruence.
    + apply list_elem_of_In, in_map, list_elem_of_In, Hin.
Qed.

End HistoryProperties.

Lemma history_is_private_witness :
  UUID_of_hex (UUID_str 3) = Some 3 ∧
  user_assessments_endpoint UUID_of_hex history_db (UUID_str 4) 3
  = HTTPException HTTP_403_FORBIDDEN "You can only access your own assessments" ∧
  ∃ entries,
    user_assessments_endpoint UUID_of_hex history_db (UUID_str 3) 3 = Response entries ∧
    map resp_id entries = [13; 11] ∧
    Forall (λ entry, resp_user_id entry = Some 3 ∧
                     resp_id entry ∈ map Assessment.id (assessments history_db)) entries.
Proof.
  assert (Hparse : UUID_of_hex (UUID_str 3) = Some 3) by (vm_compute; reflexivity).
  split; [exact Hparse|].
  destruct (history_is_private UUID_of_hex history_db (UUID_str 4) 3 Hparse)
    as [Hrefused _].
  split; [apply Hrefused; vm_compute; discriminate|].
  destruct (history_is_private UUID_of_hex history_db (UUID_str 3) 3 Hparse)
    as [_ Hown].
  assert (Hrun : ∃ entries,
            user_assessments_endpoint UUID_of_hex history_db (UUID_str 3) 3
            = Response entries ∧ map resp_id entries = [13; 11]).
  { eexists. split; vm_compute; reflexivity. }
  destruct Hrun as (entries & Hentries & Hids).
  exists entries. split; [exact Hentries|]. split; [exact Hids|].
  by apply Hown.
Defined.

(** X15. After an authenticated user has submitted an assessment with a fresh
    id and a timestamp later than those already stored, the history endpoint
    answers that user with the new assessment first, carrying the submitted
    responses. *)
Theorem submitted_assessment_heads_history UUID_of_str table db assessment_data uid
    new_id now :
  UUID_of_str (UUID_str uid) = Some uid →
  new_id ∉ map Assessment.id (assessments db) →
  Forall (λ a, Assessment.created_at a < now ∧
               is_Some (validate_responses (Assessment.responses a)))
         (assessments db) →
  ∃ earlier,
    user_assessments_endpoint UUID_of_str
      (submit_assessment table db assessment_data (Some uid) new_id now).1
      (UUID_str uid) uid
    = Response ({| resp_id := new_id;
                   resp_user_id := Some uid;
                   resp_responses := ac_responses assessment_data;
                   resp_created_at := now |} :: earlier).
Proof.
  intros Hparse Hfresh Hstored.
  rewrite submit_assessment_state.
  destruct (create_assessment_state table db
              {| ac_responses := ac_responses assessment_data;
                 ac_user_id := owner_of assessment_data (Some uid) |} new_id now)
    as [[Hin _]|(_ & rows & _ & ->)]; [done|].
  unfold user_assessments_endpoint. rewrite String.eqb_refl. simpl negb. cbv iota.
  unfold get_user_assessments. rewrite Hparse. cbn [assessments].
  set (a := new_assessment _ None new_id now).
  set (mine := λ a : Assessment.t, owner_uuid UUID_of_str a = Some uid).
  assert (Hmine : mine a).
  { unfold mine, owner_uuid, a. simpl. exact Hparse. }
  rewrite filter_app, (filter_cons _ a), decide_True, filter_nil by exact Hmine.
  rewrite py_sorted_newest_last.
  2:{ apply Forall_forall. intros b [_ Hb]%list_elem_of_filter.
      rewrite Forall_forall in Hstored. by apply Hstored. }
  change (take 10 (a :: ?l)) with (a :: take 9 l).
  set (older := take 9 _).
  assert (Holder : Forall (λ b, is_Some (assessment_response UUID_of_str b)) older).
  { apply Forall_forall. intros b Hb.
    assert (Hin : b ∈ assessments db).
    { assert (Hsorted : b ∈ py_sorted Assessment.created_at true
                                (filter mine (assessments db))).
      { rewrite <- (take_drop 9 (py_sorted _ _ _)). apply elem_of_app. by left. }
      rewrite (py_sorted_perm Assessment.created_at true) in Hsorted.
      by apply list_elem_of_filter in Hsorted as [_ ?]. }
    rewrite Forall_forall in Hstored. destruct (Hstored b Hin) as [_ [r Hr]].
    unfold assessment_response. rewrite Hr. simpl. eauto. }
  apply mapM_is_Some in Holder as [earlier Hearlier].
  exists earlier. simpl mapM. rewrite Hearlier.
  unfold mine in Hmine. simpl. rewrite Hmine. do 3 f_equal.
  by destruct (ac_responses assessment_data).
Qed.

Lemma submitted_assessment_heads_history_witness :
  UUID_of_hex (UUID_str 3) = Some 3 ∧
  ((14 : UUID) ∉ map Assessment.id (assessments history_db)) ∧
  ∃ earlier,
    user_assessments_endpoint UUID_of_hex
      (submit_assessment CLUB_SCORING_RULES history_db sample_submission (Some 3)
         14 400).1
      (UUID_str 3) 3
    = Response ({| resp_id := 14;
                   resp_user_id := Some 3;
                   resp_responses := sample_responses;
                   resp_created_at := 400 |} :: earlier).
Proof.
  assert (Hparse : UUID_of_hex (UUID_str 3) = Some 3) by (vm_compute; reflexivity).
  assert (Hfresh : (14 : UUID) ∉ map Assessment.id (assessments history_db)).
  { apply (bool_decide_unpack
             ((14 : UUID) ∉ map Assessment.id (assessments history_db))).
    vm_compute. exact I. }
  assert (Hstored : Forall (λ a, Assessment.created_at a < 400 ∧
                                 is_Some (validate_responses (Assessment.responses a)))
                      (assessments history_db)).
  { unfold history_db. cbn [assessments].
    repeat constructor; cbn [Assessment.created_at Assessment.responses];
      rewrite ?validate_model_dump; eauto; lia. }
  split; [exact Hparse|]. split; [exact Hfresh|].
  exact (submitted_assessment_heads_history UUID_of_hex CLUB_SCORING_RULES history_db
           sample_submission 3 14 400 Hparse Hfresh Hstored).
Defined.
